(** * scaffold: the project generator, embedded and verified

    A shallow embedding of the Go packages [templates], [generator],
    [config] and [main] of the scaffold tool, followed by the theorems that
    settle what its specification says about them.

    Conventions of the embedding:
    - a Go [string] and a Go [[]byte] are Rocq strings (sequences of bytes);
    - a Go [error] is its message, and an [error] return value is an
      [option error] with [None] for [nil];
    - a Go [(T, error)] return value is a [result T];
    - the operating system (os.Stat, os.MkdirAll, os.WriteFile, os.Getwd),
      the embedded template files with the text/template engine, and the
      interactive form are capabilities of the environment, given as type
      classes; concrete instances are defined further down and used to run
      the program on explicit inputs;
    - stateful code threads a [World]: the file system together with the
      chronological trace of the effects the program performed. *)

From Stdlib Require Import String Ascii List Bool Permutation Lia.
From stdpp Require Import base option list strings gmap fin_maps.

Import ListNotations.
Local Open Scope string_scope.
Local Open Scope list_scope.

Definition error : Type := string.
Definition bytes : Type := string.

Inductive result (A : Type) : Type :=
| Ok (a : A)
| Err (e : error).
Arguments Ok {A} a.
Arguments Err {A} e.

(** The line feed, for the output of fmt.Println and fmt.Printf, and the
    double quote. *)
Definition nl : string := String (ascii_of_nat 10) EmptyString.
Definition dquote : string := String (ascii_of_nat 34) EmptyString.

(* ===================================================================== *)
(** ** Go's [strings] and [path/filepath], as far as the program uses them *)
(* ===================================================================== *)

Module strings.

(** [byteIn c chars]: the byte [c] occurs in [chars]. *)
Fixpoint byteIn (c : ascii) (chars : string) : bool :=
  match chars with
  | EmptyString => false
  | String d chars' => Ascii.eqb c d || byteIn c chars'
  end.

(** strings.ContainsAny(s, chars) for a [chars] made of ASCII characters
    only, which is how the program calls it: some byte of [s] is one of
    [chars]. *)
Fixpoint ContainsAny (s chars : string) : bool :=
  match s with
  | EmptyString => false
  | String c s' => byteIn c chars || ContainsAny s' chars
  end.

(** strings.Join(elems, sep). *)
Fixpoint Join (elems : list string) (sep : string) : string :=
  match elems with
  | [] => ""
  | [e] => e
  | e :: rest => e +:+ sep +:+ Join rest sep
  end.

End strings.

Module filepath.

Definition isSep (c : ascii) : bool := Ascii.eqb c "/"%char.

(** The elements of a path between its separators; [cur] is the element
    being read. *)
Fixpoint elements (path cur : string) : list string :=
  match path with
  | EmptyString => [cur]
  | String c path' =>
      if isSep c then cur :: elements path' ""
      else elements path' (cur +:+ String c "")
  end.

(** One step of Clean's scan over the elements; [out] is the cleaned
    path so far, last element first. *)
Definition cleanStep (rooted : bool) (out : list string) (el : string)
  : list string :=
  if String.eqb el "" then out                  (* empty path element *)
  else if String.eqb el "." then out            (* . element *)
  else if String.eqb el ".." then               (* .. element *)
    match out with
    | top :: out' =>
        if String.eqb top ".." then (if rooted then out else el :: out)
        else out'                               (* can backtrack *)
    | [] => if rooted then out else [el]
    end
  else el :: out.                               (* real path element *)

(** filepath.Clean on a Unix system (separator [/], no volume names). *)
Definition Clean (path : string) : string :=
  match path with
  | EmptyString => "."
  | String c _ =>
      let rooted := isSep c in
      let out := fold_left (cleanStep rooted) (elements path "") [] in
      let body := strings.Join (rev out) "/" in
      if rooted then "/" +:+ body
      else if String.eqb body "" then "." else body
  end.

(** filepath.Join: the leading empty elements are dropped, the others are
    joined with the separator and the result is cleaned; with nothing
    but empty elements the result is the empty string. *)
Fixpoint Join (elem : list string) : string :=
  match elem with
  | [] => ""
  | e :: rest =>
      if String.eqb e "" then Join rest
      else Clean (strings.Join elem "/")
  end.

End filepath.

(* ===================================================================== *)
(** ** Package [templates] *)
(* ===================================================================== *)

Module templates.

(** type ProjectType string *)
Definition ProjectType : Type := string.

Definition TypeCLI : ProjectType := "cli".
Definition TypeLibrary : ProjectType := "library".
Definition TypeService : ProjectType := "service".

Record ProjectConfig : Type := {
  ProjectName : string;
  ModulePath : string;
  Author : string;
  License : string;
  Type_ : ProjectType
}.

(** The embedded directory [templateFS] and the text/template engine. The
    template files themselves are not part of the sources, so the
    embedding takes them, and the engine that parses and executes them,
    from the environment. *)
Class TemplateSource : Type := {
  Template : Type;
  (** templateFS.ReadFile(name) *)
  ReadFile : string -> result bytes;
  (** template.New(name).Parse(content) *)
  Parse : string -> string -> result Template;
  (** tmpl.Execute(&buf, config), giving buf.Bytes() *)
  Execute : Template -> ProjectConfig -> result bytes
}.

Section Source.
Context `{TemplateSource}.

Definition GetTemplate (name : string) : result Template :=
  match ReadFile ("files/" +:+ name) with
  | Err err => Err err
  | Ok content => Parse name content
  end.

Definition GetWorkflowFile (name : string) : result bytes :=
  ReadFile ("files/" +:+ name).
End Source.

Definition DirectoryStructure (projectType : ProjectType) : list string :=
  if String.eqb projectType TypeLibrary then
    [ "internal"; "pkg"; "cmd"; "scripts"; "test"; "docs"; "examples" ]
  else if String.eqb projectType TypeCLI then
    [ "cmd"; "internal"; "pkg"; "api"; "configs"; "scripts"; "build";
      "test"; "docs"; "examples" ]
  else if String.eqb projectType TypeService then
    [ "cmd"; "internal"; "pkg"; "api"; "web"; "configs"; "scripts";
      "build"; "test"; "docs"; "examples" ]
  else
    [ "cmd"; "internal"; "pkg"; "api"; "configs"; "scripts"; "build";
      "test"; "docs"; "examples" ].

End templates.

(* ===================================================================== *)
(** ** The environment: operating system and Go runtime *)
(* ===================================================================== *)

(** The calls of package [os] the program makes. [Stat] gives the error of
    os.Stat ([None] when the entry exists) and does not change the file
    system; [MkdirAll] and [WriteFile] give the file system they leave
    behind together with their error, since a failed call may have done
    part of its work. The second argument of both is the permission mode. *)
Class OS : Type := {
  FS : Type;
  Stat : string -> FS -> option error;
  MkdirAll : string -> N -> FS -> FS * option error;
  WriteFile : string -> bytes -> N -> FS -> FS * option error;
  Getwd : FS -> result string
}.

(** Go leaves the order of a [range] over a map unspecified: the runtime
    picks some order of the entries. *)
Class GoRuntime : Type := {
  rangeOrder : gmap string string -> list (string * string);
  rangeOrder_perm : forall m, rangeOrder m ≡ₚ map_to_list m
}.

(** What the program did: its output and its calls that change the file
    system, each with the error the call gave. *)
Inductive Event : Type :=
| EvPrint (s : string)
| EvMkdirAll (path : string) (err : option error)
| EvWriteFile (path : string) (data : bytes) (err : option error).

Section Effects.
Context `{OS}.

(** A run of a piece of the program from a file system: the value it
    returns, the file system it leaves and the events it performed, in
    order. *)
Record Run (A : Type) : Type := {
  value : A;
  final : FS;
  events : list Event
}.
Arguments value {A} r.
Arguments final {A} r.
Arguments events {A} r.

Definition M (A : Type) : Type := FS -> Run A.

Definition ret {A} (a : A) : M A :=
  fun fs => {| value := a; final := fs; events := [] |}.

Definition bind {A B} (m : M A) (k : A -> M B) : M B :=
  fun fs =>
    let r := m fs in
    let r' := k (value r) (final r) in
    {| value := value r'; final := final r';
       events := events r ++ events r' |}.

(** fmt.Print of an already formatted string. *)
Definition print (s : string) : M unit :=
  fun fs => {| value := tt; final := fs; events := [EvPrint s] |}.

Definition osStat (path : string) : M (option error) :=
  fun fs => {| value := Stat path fs; final := fs; events := [] |}.

Definition osMkdirAll (path : string) (perm : N) : M (option error) :=
  fun fs =>
    let (fs', err) := MkdirAll path perm fs in
    {| value := err; final := fs'; events := [EvMkdirAll path err] |}.

Definition osWriteFile (path : string) (data : bytes) (perm : N)
  : M (option error) :=
  fun fs =>
    let (fs', err) := WriteFile path data perm fs in
    {| value := err; final := fs'; events := [EvWriteFile path data err] |}.

(** [if err := m; err != nil { return wrap(err) }], then [k]. *)
Definition ifErr (m : M (option error)) (wrap : error -> error)
  (k : M (option error)) : M (option error) :=
  bind m (fun err =>
    match err with
    | Some err => ret (Some (wrap err))
    | None => k
    end).

(** [for _, x := range l { body }] where [body x] gives [Some err] to
    return [err] from the enclosing function and [None] to go on. *)
Fixpoint forRange {A} (l : list A) (body : A -> M (option error))
  : M (option error) :=
  match l with
  | [] => ret None
  | x :: l' => ifErr (body x) id (forRange l' body)
  end.

End Effects.

Arguments value {_ A} r.
Arguments final {_ A} r.
Arguments events {_ A} r.

Notation "x <- m ;; k" := (bind m (fun x => k))
  (at level 100, m at next level, right associativity).
Notation "m ;; k" := (bind m (fun _ => k))
  (at level 100, right associativity).

(** The permission modes 0755 and 0644. *)
Definition perm_0755 : N := 493.
Definition perm_0644 : N := 420.

(* ===================================================================== *)
(** ** Package [generator] *)
(* ===================================================================== *)

Module generator.
Import templates.

Record Generator : Type := {
  config : ProjectConfig;
  baseDir : string;
  dryRun : bool
}.

Definition New (config : ProjectConfig) (baseDir : string) (dryRun : bool)
  : Generator :=
  {| config := config; baseDir := baseDir; dryRun := dryRun |}.

Definition getMakefileTemplate (g : Generator) : string :=
  let t := Type_ (config g) in
  if String.eqb t TypeLibrary then "Makefile-library.tmpl"
  else if String.eqb t TypeService then "Makefile-service.tmpl"
  else if String.eqb t TypeCLI then "Makefile-cli.tmpl"
  else "Makefile-cli.tmpl".

Section Run.
Context `{OS} `{TemplateSource} `{GoRuntime}.

Definition createDirectories (g : Generator) (projectPath : string)
  : M (option error) :=
  let dirs := DirectoryStructure (Type_ (config g)) in
  ifErr (forRange dirs (fun dir =>
    let dirPath := filepath.Join [projectPath; dir] in
    ifErr (osMkdirAll dirPath perm_0755)
      (fun err => "failed to create directory " +:+ dir +:+ ": " +:+ err)
      (ret None))) id $
  let cmdPath := filepath.Join [projectPath; "cmd"; ProjectName (config g)] in
  ifErr (osMkdirAll cmdPath perm_0755)
    (fun err => "failed to create cmd directory: " +:+ err) $
  let workflowsPath := filepath.Join [projectPath; ".github"; "workflows"] in
  ifErr (osMkdirAll workflowsPath perm_0755)
    (fun err => "failed to create .github/workflows directory: " +:+ err) $
  ret None.

Definition generateFile (g : Generator)
  (projectPath fileName templateName : string) : M (option error) :=
  match GetTemplate templateName with
  | Err err =>
      ret (Some ("failed to load template " +:+ templateName +:+ ": " +:+ err))
  | Ok tmpl =>
      match Execute tmpl (config g) with
      | Err err =>
          ret (Some ("failed to execute template " +:+ templateName
                     +:+ ": " +:+ err))
      | Ok buf =>
          let filePath := filepath.Join [projectPath; fileName] in
          ifErr (osWriteFile filePath buf perm_0644)
            (fun err => "failed to write file " +:+ fileName +:+ ": " +:+ err) $
          ret None
      end
  end.

Definition copyWorkflowFile (g : Generator)
  (projectPath destPath srcPath : string) : M (option error) :=
  match GetWorkflowFile srcPath with
  | Err err =>
      ret (Some ("failed to read workflow file " +:+ srcPath +:+ ": " +:+ err))
  | Ok content =>
      let filePath := filepath.Join [projectPath; destPath] in
      ifErr (osWriteFile filePath content perm_0644)
        (fun err => "failed to write workflow file " +:+ destPath
                    +:+ ": " +:+ err) $
      ret None
  end.

Definition commonWorkflows : gmap string string :=
  {[ ".github/workflows/test.yml" := ".github/workflows/test.yml" ]}.

Definition releaseWorkflow (g : Generator) : string :=
  let t := Type_ (config g) in
  if String.eqb t TypeLibrary then ".github/workflows/release-library.yml"
  else if String.eqb t TypeService then ".github/workflows/release-service.yml"
  else if String.eqb t TypeCLI then ".github/workflows/release-cli.yml"
  else ".github/workflows/release-cli.yml".

Definition generateWorkflowFiles (g : Generator) (projectPath : string)
  : M (option error) :=
  ifErr (forRange (rangeOrder commonWorkflows) (fun '(filePath, templatePath) =>
    copyWorkflowFile g projectPath filePath templatePath)) id $
  generateFile g projectPath ".github/workflows/release.yml" (releaseWorkflow g).

Definition skipDirs : gmap string bool := {[ "cmd" := true ]}.

Definition createGitkeepFiles (g : Generator) (projectPath : string)
  : M (option error) :=
  let dirs := DirectoryStructure (Type_ (config g)) in
  ifErr (forRange dirs (fun dir =>
    if default false (skipDirs !! dir) then ret None
    else
      let gitkeepPath := filepath.Join [projectPath; dir; ".gitkeep"] in
      err <- osWriteFile gitkeepPath "" perm_0644 ;;
      match err with
      | Some _ => ret None      (* continue *)
      | None => ret None
      end)) id $
  ret None.

(** The map [files] of generateFiles, after the Dockerfile entry has
    been added for a service project. *)
Definition files (g : Generator) : gmap string string :=
  let files : gmap string string :=
    <[ "go.mod" := "go.mod.tmpl" ]>
    (<[ ".gitignore" := "gitignore.tmpl" ]>
    (<[ "Makefile" := getMakefileTemplate g ]>
    {[ "README.md" := "README.md.tmpl" ]})) in
  if String.eqb (Type_ (config g)) TypeService
  then <[ "Dockerfile" := "Dockerfile-service.tmpl" ]> files
  else files.

Definition generateFiles (g : Generator) (projectPath : string)
  : M (option error) :=
  ifErr (forRange (rangeOrder (files g)) (fun '(fileName, templateName) =>
    generateFile g projectPath fileName templateName)) id $
  let mainPath := filepath.Join ["cmd"; ProjectName (config g); "main.go"] in
  ifErr (generateFile g projectPath mainPath "main.go.tmpl") id $
  ifErr (generateWorkflowFiles g projectPath) id $
  ifErr (createGitkeepFiles g projectPath) id $
  ret None.

Definition preview (g : Generator) : M (option error) :=
  let projectPath := filepath.Join [baseDir g; ProjectName (config g)] in
  print (nl +:+ "Project: " +:+ ProjectName (config g) +:+ nl) ;;
  print ("Location: " +:+ projectPath +:+ nl) ;;
  print ("Module Path: " +:+ ModulePath (config g) +:+ nl) ;;
  print ("Type: " +:+ Type_ (config g) +:+ nl +:+ nl) ;;
  print ("Directories to be created:" +:+ nl) ;;
  let dirs := DirectoryStructure (Type_ (config g)) in
  forRange dirs (fun dir =>
    print ("  " +:+ dir +:+ "/" +:+ nl) ;; ret None) ;;
  print ("  cmd/" +:+ ProjectName (config g) +:+ "/" +:+ nl) ;;
  print (nl +:+ "Files to be created:" +:+ nl) ;;
  let files :=
    [ "README.md"; "Makefile"; ".gitignore"; "go.mod";
      "cmd/" +:+ ProjectName (config g) +:+ "/main.go" ] in
  let files :=
    if String.eqb (Type_ (config g)) TypeService
    then files ++ ["Dockerfile"] else files in
  forRange files (fun file =>
    print ("  " +:+ file +:+ nl) ;; ret None) ;;
  ret None.

Definition Generate (g : Generator) : M (option error) :=
  let projectPath := filepath.Join [baseDir g; ProjectName (config g)] in
  err <- osStat projectPath ;;
  match err with
  | None => ret (Some ("directory " +:+ projectPath +:+ " already exists"))
  | Some _ =>
      if dryRun g then
        print ("Dry run mode - no files will be created" +:+ nl) ;;
        preview g
      else
        ifErr (osMkdirAll projectPath perm_0755)
          (fun err => "failed to create project directory: " +:+ err) $
        ifErr (createDirectories g projectPath) id $
        ifErr (generateFiles g projectPath) id
          (print ("✓ Project " +:+ ProjectName (config g)
                  +:+ " created successfully at " +:+ projectPath +:+ nl) ;;
           ret None)
  end.

End Run.

Definition ValidateProjectName (name : string) : option error :=
  if String.eqb name "" then Some "project name cannot be empty"
  else if strings.ContainsAny name (" /\:*?" +:+ dquote +:+ "<>|")
  then Some "project name contains invalid characters"
  else None.

End generator.

(* ===================================================================== *)
(** ** Package [config] *)
(* ===================================================================== *)

Module config.
Import templates.

(** What the user leaves in the fields of the form when it is submitted. *)
Record FormValues : Type := {
  fvProjectName : string;
  fvModulePath : string;
  fvAuthor : string;
  fvLicense : string;
  fvProjectType : string
}.

(** The interactive form (huh.NewForm(...).Run()): given whether the
    project name is asked for and the values the fields start from, the
    form fails or is submitted with the values of its fields. *)
Class Terminal : Type := {
  formRun : bool -> FormValues -> result FormValues
}.

Section Prompt.
Context `{Terminal}.

(** The configuration is updated in place; the result is the
    configuration afterwards and the error. *)
Definition PromptForMissingConfig (config : ProjectConfig)
  : ProjectConfig * option error :=
  let t := Type_ config in
  let projectType :=
    if String.eqb t TypeCLI then "cli"
    else if String.eqb t TypeLibrary then "library"
    else if String.eqb t TypeService then "service"
    else "cli" in
  let askName := String.eqb (ProjectName config) "" in
  match formRun askName
          {| fvProjectName := ProjectName config;
             fvModulePath := ModulePath config;
             fvAuthor := Author config;
             fvLicense := License config;
             fvProjectType := projectType |} with
  | Err err => (config, Some ("form cancelled or failed: " +:+ err))
  | Ok v =>
      let projectName :=
        if askName then fvProjectName v else ProjectName config in
      let modulePath :=
        if String.eqb (fvModulePath v) "" then projectName
        else fvModulePath v in
      let author :=
        if String.eqb (fvAuthor v) "" then "Your Name" else fvAuthor v in
      ({| ProjectName := projectName;
          ModulePath := modulePath;
          Author := author;
          License := fvLicense v;
          Type_ := fvProjectType v |}, None)
  end.
End Prompt.

End config.

(* ===================================================================== *)
(** ** Package [main] *)
(* ===================================================================== *)

Module main.
Import templates.

(** The package-level variables the flags of the [new] command are bound
    to. *)
Record Flags : Type := {
  modulePath : string;
  author : string;
  license : string;
  projectType : string;
  dryRun : bool;
  interactive : bool
}.

Section Command.
Context `{OS} `{TemplateSource} `{GoRuntime} `{config.Terminal}.

(** The first part of runNew, down to the comment
    [// Get current working directory]: the configuration that is
    handed to the generator, or the error runNew returns before it
    gets there. *)
Definition runNew_config (flags : Flags) (args : list string)
  : result ProjectConfig :=
  let '(interactive, projectName, nameErr) :=
    match args with
    | [] => (true, "", None)
    | arg0 :: _ => (interactive flags, arg0, generator.ValidateProjectName arg0)
    end in
  match nameErr with
  | Some err => Err err
  | None =>
      let pType : ProjectType := projectType flags in
      let cfg :=
        {| ProjectName := projectName;
           ModulePath := modulePath flags;
           Author := author flags;
           License := license flags;
           Type_ := pType |} in
      if interactive then
        match config.PromptForMissingConfig cfg with
        | (_, Some err) => Err err
        | (cfg, None) =>
            match generator.ValidateProjectName (ProjectName cfg) with
            | Some err => Err err
            | None => Ok cfg
            end
        end
      else
        if negb (String.eqb pType TypeCLI)
           && negb (String.eqb pType TypeLibrary)
           && negb (String.eqb pType TypeService)
        then Err ("invalid project type: " +:+ projectType flags
                  +:+ " (must be cli, library, or service)")
        else
          let cfg :=
            if String.eqb (ModulePath cfg) "" then
              {| ProjectName := ProjectName cfg;
                 ModulePath := projectName;
                 Author := Author cfg;
                 License := License cfg;
                 Type_ := Type_ cfg |}
            else cfg in
          let cfg :=
            if String.eqb (Author cfg) "" then
              {| ProjectName := ProjectName cfg;
                 ModulePath := ModulePath cfg;
                 Author := "Your Name";
                 License := License cfg;
                 Type_ := Type_ cfg |}
            else cfg in
          Ok cfg
  end.

Definition runNew (flags : Flags) (args : list string) : M (option error) :=
  match runNew_config flags args with
  | Err err => ret (Some err)
  | Ok cfg =>
      fun fs =>
        match Getwd fs with
        | Err err => ret (Some ("failed to get current directory: " +:+ err)) fs
        | Ok cwd =>
            let projectName := match args with [] => "" | arg0 :: _ => arg0 end in
            let gen := generator.New cfg cwd (dryRun flags) in
            (ifErr (generator.Generate gen) id
               (if negb (dryRun flags) then
                  print (nl +:+ "Next steps:" +:+ nl) ;;
                  print ("  cd " +:+ projectName +:+ nl) ;;
                  print ("  make deps" +:+ nl) ;;
                  print ("  make build" +:+ nl) ;;
                  print ("  make run" +:+ nl) ;;
                  ret None
                else ret None)) fs
        end
  end.

End Command.

End main.

(* ===================================================================== *)
(** ** Concrete environments, to run the program on explicit inputs *)
(* ===================================================================== *)

(** *** An in-memory file system *)

Module memfs.

Inductive Node : Type :=
| Dir
| File (data : bytes).

(** The entries are keyed by their absolute cleaned path, the root being
    the empty key; [deny] lists the keys the process has no permission to
    create or write. *)
Record MemFS : Type := {
  entries : gmap string Node;
  deny : list string;
  cwd : string
}.

Definition key (m : MemFS) (path : string) : string :=
  let abs :=
    match path with
    | String "/" _ => filepath.Clean path
    | _ => filepath.Join [cwd m; path]
    end in
  if String.eqb abs "/" then "" else abs.

Definition denied (m : MemFS) (k : string) : bool :=
  existsb (String.eqb k) (deny m).

Definition isDir (m : MemFS) (k : string) : bool :=
  if String.eqb k "" then true
  else match entries m !! k with
       | Some Dir => true
       | _ => false
       end.

(** The names below the root of a key, outermost first. *)
Definition names (k : string) : list string :=
  filter (fun el => el <> "") (filepath.elements k "").

Definition parent (k : string) : string :=
  fold_left (fun cur el => cur +:+ "/" +:+ el) (removelast (names k)) "".

Definition stat (path : string) (m : MemFS) : option error :=
  let k := key m path in
  if String.eqb k "" then None
  else match entries m !! k with
       | Some _ => None
       | None => Some ("stat " +:+ path +:+ ": no such file or directory")
       end.

(** Create the directories [cur/el1], [cur/el1/el2], ... that are not
    there yet. *)
Fixpoint mkdirs (m : MemFS) (cur : string) (els : list string)
  : MemFS * option error :=
  match els with
  | [] => (m, None)
  | el :: els' =>
      let k := cur +:+ "/" +:+ el in
      match entries m !! k with
      | Some Dir => mkdirs m k els'
      | Some (File _) => (m, Some ("mkdir " +:+ k +:+ ": not a directory"))
      | None =>
          if denied m k then (m, Some ("mkdir " +:+ k +:+ ": permission denied"))
          else mkdirs {| entries := <[ k := Dir ]> (entries m);
                         deny := deny m; cwd := cwd m |} k els'
      end
  end.

Definition mkdirAll (path : string) (perm : N) (m : MemFS)
  : MemFS * option error :=
  mkdirs m "" (names (key m path)).

Definition writeFile (path : string) (data : bytes) (perm : N) (m : MemFS)
  : MemFS * option error :=
  let k := key m path in
  if isDir m k then (m, Some ("open " +:+ path +:+ ": is a directory"))
  else if negb (isDir m (parent k))
  then (m, Some ("open " +:+ path +:+ ": no such file or directory"))
  else if denied m k
  then (m, Some ("open " +:+ path +:+ ": permission denied"))
  else ({| entries := <[ k := File data ]> (entries m);
           deny := deny m; cwd := cwd m |}, None).

Definition getwd (m : MemFS) : result string := Ok (cwd m).

#[export] Instance os : OS := {|
  FS := MemFS;
  Stat := stat;
  MkdirAll := mkdirAll;
  WriteFile := writeFile;
  Getwd := getwd
|}.

(** The paths of the entries, and of the regular files, in key order. *)
Definition paths (m : MemFS) : list string :=
  (map_to_list (entries m)).*1.

Definition readFile (m : MemFS) (path : string) : option bytes :=
  match entries m !! key m path with
  | Some (File data) => Some data
  | _ => None
  end.

End memfs.

(** *** A file system on which every call goes through *)

Module idealfs.

(** The entries by the path they were created under: [None] for a
    directory, the content for a file. *)
Definition stat (path : string) (m : gmap string (option bytes)) : option error :=
  match m !! path with
  | Some _ => None
  | None => Some ("stat " +:+ path +:+ ": no such file or directory")
  end.

Definition mkdirAll (path : string) (perm : N) (m : gmap string (option bytes))
  : gmap string (option bytes) * option error :=
  (<[ path := None ]> m, None).

Definition writeFile (path : string) (data : bytes) (perm : N)
  (m : gmap string (option bytes)) : gmap string (option bytes) * option error :=
  (<[ path := Some data ]> m, None).

Definition os : OS := {|
  FS := gmap string (option bytes);
  Stat := stat;
  MkdirAll := mkdirAll;
  WriteFile := writeFile;
  Getwd := fun _ => Ok "/work"
|}.

End idealfs.

(** *** A template engine for the field actions of text/template *)

Module minitemplate.
Import templates.

Inductive Segment : Type :=
| Text (s : string)
| Field (name : string).

(** The text is scanned for [{{.Name}}] actions; [text] is the literal
    text read so far and [act] the action being read, if one is open.
    An action that is not a field of the dot, or that is not closed,
    does not parse. *)
Fixpoint scan (s text : string) (act : option string)
  : result (list Segment) :=
  match s with
  | EmptyString =>
      match act with
      | None => Ok [Text text]
      | Some _ => Err "unclosed action"
      end
  | String c s' =>
      match act with
      | None =>
          match c, s' with
          | "{"%char, String "{" rest =>
              match scan rest "" (Some "") with
              | Ok segs => Ok (Text text :: segs)
              | Err e => Err e
              end
          | _, _ => scan s' (text +:+ String c "") None
          end
      | Some a =>
          match c, s' with
          | "}"%char, String "}" rest =>
              match a with
              | String "." name =>
                  match scan rest "" None with
                  | Ok segs => Ok (Field name :: segs)
                  | Err e => Err e
                  end
              | _ => Err ("function " +:+ a +:+ " not defined")
              end
          | _, _ => scan s' text (Some (a +:+ String c ""))
          end
      end
  end.

Definition field (config : ProjectConfig) (name : string) : result string :=
  if String.eqb name "ProjectName" then Ok (ProjectName config)
  else if String.eqb name "ModulePath" then Ok (ModulePath config)
  else if String.eqb name "Author" then Ok (Author config)
  else if String.eqb name "License" then Ok (License config)
  else if String.eqb name "Type" then Ok (Type_ config)
  else Err ("can't evaluate field " +:+ name).

Fixpoint execute (segs : list Segment) (config : ProjectConfig)
  : result bytes :=
  match segs with
  | [] => Ok ""
  | Text s :: segs' =>
      match execute segs' config with
      | Ok out => Ok (s +:+ out)
      | Err e => Err e
      end
  | Field name :: segs' =>
      match field config name with
      | Err e => Err e
      | Ok v =>
          match execute segs' config with
          | Ok out => Ok (v +:+ out)
          | Err e => Err e
          end
      end
  end.

(** The template source made of the given embedded files. *)
Definition source (embedded : gmap string bytes) : TemplateSource := {|
  Template := list Segment;
  ReadFile := fun name =>
    match embedded !! name with
    | Some content => Ok content
    | None => Err ("open " +:+ name +:+ ": file does not exist")
    end;
  Parse := fun _ content => scan content "" None;
  Execute := execute
|}.

End minitemplate.

(** *** A runtime that ranges over a map in key order *)

#[export] Instance keyOrder : GoRuntime := {|
  rangeOrder := map_to_list;
  rangeOrder_perm := fun m => reflexivity (map_to_list m)
|}.

(** *** A runtime that ranges over a map in the opposite order *)

Definition reverseKeyOrder : GoRuntime := {|
  rangeOrder := fun m => reverse (map_to_list m);
  rangeOrder_perm := fun m => reverse_Permutation (map_to_list m)
|}.

(** *** A terminal whose user submits the form as it stands *)

Definition submitAsIs : config.Terminal := {|
  config.formRun := fun _ v => Ok v
|}.

(** *** A terminal whose user types the project name demo *)

Definition entersDemo : config.Terminal := {|
  config.formRun := fun _ v =>
    Ok {| config.fvProjectName := "demo";
          config.fvModulePath := config.fvModulePath v;
          config.fvAuthor := config.fvAuthor v;
          config.fvLicense := config.fvLicense v;
          config.fvProjectType := config.fvProjectType v |}
|}.

(* ===================================================================== *)
(** ** Notions used to state the properties *)
(* ===================================================================== *)

(** The characters a project name must not contain, as the specification
    lists them: the space, the slash, the backslash, the colon, the
    asterisk, the question mark, the double quote, the angle brackets and
    the vertical bar. *)
Definition reserved : list ascii :=
  [ " "; "/"; "\"; ":"; "*"; "?"; ascii_of_nat 34; "<"; ">"; "|" ]%char.

(** The file writes a run attempted, whether they succeeded or not: path
    and content, in order. *)
Definition writeAttempts (tr : list Event) : list (string * bytes) :=
  flat_map (fun ev =>
    match ev with
    | EvWriteFile path data _ => [(path, data)]
    | _ => []
    end) tr.

(** The writes of a run, each with its content as a successful result, to
    be compared with what the template source gives. *)
Definition attempted (tr : list Event) : list (string * result bytes) :=
  map (fun pd => (pd.1, Ok pd.2)) (writeAttempts tr).

(** The directories a run asked for. *)
Definition mkdirAttempts (tr : list Event) : list string :=
  flat_map (fun ev =>
    match ev with
    | EvMkdirAll path _ => [path]
    | _ => []
    end) tr.

(** The output of a run. *)
Definition stdout (tr : list Event) : list string :=
  flat_map (fun ev =>
    match ev with
    | EvPrint s => [s]
    | _ => []
    end) tr.

(** The paths a run created: those of its calls of MkdirAll and WriteFile
    that gave no error. *)
Definition created (tr : list Event) : list string :=
  flat_map (fun ev =>
    match ev with
    | EvMkdirAll path None => [path]
    | EvWriteFile path _ None => [path]
    | _ => []
    end) tr.

(** A string without its last byte. *)
Fixpoint dropLast (s : string) : string :=
  match s with
  | EmptyString => ""
  | String c EmptyString => ""
  | String c s' => String c (dropLast s')
  end.

(** The entries of the plan in the output of a dry run: its lines indented
    by two spaces, without the indentation and the line feed. *)
Definition reported (out : list string) : list string :=
  flat_map (fun line =>
    match line with
    | String " " (String " " entry) => [dropLast entry]
    | _ => []
    end) out.

(** An event that is no failed call. *)
Definition okEvent (ev : Event) : Prop :=
  match ev with
  | EvPrint _ => True
  | EvMkdirAll _ err => err = None
  | EvWriteFile _ _ err => err = None
  end.

Definition isMkdir (ev : Event) : Prop :=
  match ev with
  | EvMkdirAll _ _ => True
  | _ => False
  end.

Definition isWrite (ev : Event) : Prop :=
  match ev with
  | EvWriteFile _ _ _ => True
  | _ => False
  end.

(** An event that changes nothing on the file system. *)
Definition isPrint (ev : Event) : Prop :=
  match ev with
  | EvPrint _ => True
  | _ => False
  end.

Section Notions.
Import templates generator.
Context `{OS} `{TemplateSource} `{GoRuntime}.

(** A piece of program all of whose events satisfy [P]. *)
Definition performs (P : Event -> Prop) {A} (m : M A) : Prop :=
  forall fs, Forall P (events (m fs)).

(** A piece of program that stops at the first call that fails: when it
    returns nil every call it made went through, and when it returns an
    error its last call is the one that failed and the only one. *)
Definition stopsAtFailure (m : M (option error)) : Prop :=
  forall fs,
    match value (m fs) with
    | None => Forall okEvent (events (m fs))
    | Some _ =>
        exists tr ev,
          events (m fs) = tr ++ [ev] /\ Forall okEvent tr /\ ~ okEvent ev
    end.

(** A piece of program that leaves the file system as it finds it and
    performs print events only. *)
Definition printsOnly {A} (m : M A) : Prop :=
  forall fs, final (m fs) = fs /\ Forall isPrint (events (m fs)).

(** What generateFile writes for a template: the template is resolved,
    parsed and executed against the configuration. *)
Definition rendered (g : Generator) (templateName : string) : result bytes :=
  match GetTemplate templateName with
  | Err err => Err err
  | Ok tmpl => Execute tmpl (config g)
  end.

(** generateFiles with its last step, the call of createGitkeepFiles,
    left out. *)
Definition generateFiles_without_placeholders (g : Generator)
  (projectPath : string) : M (option error) :=
  ifErr (forRange (rangeOrder (files g)) (fun '(fileName, templateName) =>
    generateFile g projectPath fileName templateName)) id $
  let mainPath := filepath.Join ["cmd"; ProjectName (config g); "main.go"] in
  ifErr (generateFile g projectPath mainPath "main.go.tmpl") id $
  ifErr (generateWorkflowFiles g projectPath) id $
  ret None.

(** Generate in real mode with the placeholder step left out of its
    generateFiles. *)
Definition Generate_without_placeholders (g : Generator) : M (option error) :=
  let projectPath := filepath.Join [baseDir g; ProjectName (config g)] in
  err <- osStat projectPath ;;
  match err with
  | None => ret (Some ("directory " +:+ projectPath +:+ " already exists"))
  | Some _ =>
      ifErr (osMkdirAll projectPath perm_0755)
        (fun err => "failed to create project directory: " +:+ err) $
      ifErr (createDirectories g projectPath) id $
      ifErr (generateFiles_without_placeholders g projectPath) id
        (print ("✓ Project " +:+ ProjectName (config g)
                +:+ " created successfully at " +:+ projectPath +:+ nl) ;;
         ret None)
  end.

(** The claim that the release workflow is copied like a static file:
    whatever a successful generateWorkflowFiles writes to release.yml
    is the content of the selected file of the template source. *)
Definition release_copied_unmodified : Prop :=
  forall (g : Generator) (projectPath : string) (fs : FS) (data : bytes),
    value (generateWorkflowFiles g projectPath fs) = None ->
    In (filepath.Join [projectPath; ".github/workflows/release.yml"], data)
       (writeAttempts (events (generateWorkflowFiles g projectPath fs))) ->
    GetWorkflowFile (releaseWorkflow g) = Ok data.

(** The claim that the preview predicts the real run: for every
    configuration, base directory and file system on which real
    generation succeeds, the paths it creates, the project directory
    itself apart, are the entries the dry run reports, taken below the
    project path. *)
Definition preview_predicts_created : Prop :=
  forall (cfg : ProjectConfig) (base : string) (fs : FS),
    let dry := Generate (New cfg base true) fs in
    let real := Generate (New cfg base false) fs in
    value real = None ->
    forall path : string,
      path <> filepath.Join [base; ProjectName cfg] ->
      In path (created (events real))
      <-> In path (map (fun entry =>
                          filepath.Join [filepath.Join [base; ProjectName cfg]; entry])
                       (reported (stdout (events dry)))).

End Notions.

(** *** The inputs of the worked examples *)

Module fixture.
Import templates generator.

(** A template source with every file the generator asks for. *)
Definition embedded : gmap string bytes :=
  list_to_map
    [ ("files/README.md.tmpl", "# {{.ProjectName}} by {{.Author}}");
      ("files/Makefile-cli.tmpl", "BINARY_NAME={{.ProjectName}}");
      ("files/Makefile-library.tmpl", "LIBRARY={{.ProjectName}}");
      ("files/Makefile-service.tmpl", "SERVICE={{.ProjectName}}");
      ("files/gitignore.tmpl", "bin/");
      ("files/go.mod.tmpl", "module {{.ModulePath}}");
      ("files/Dockerfile-service.tmpl", "FROM golang");
      ("files/main.go.tmpl", "package main");
      ("files/.github/workflows/test.yml", "go: ${{ matrix.go }}");
      ("files/.github/workflows/release-cli.yml",
       "name: release {{.ProjectName}}");
      ("files/.github/workflows/release-library.yml",
       "name: release library {{.ProjectName}}");
      ("files/.github/workflows/release-service.yml",
       "name: release service {{.ProjectName}}") ].

Definition ts : TemplateSource := minitemplate.source embedded.

(** A template source with no file at all. *)
Definition noTemplates : TemplateSource := minitemplate.source ∅.

(** A file system with the directory /work, which is the current
    directory, and nothing in it. *)
Definition work : memfs.MemFS :=
  {| memfs.entries := {[ "/work" := memfs.Dir ]};
     memfs.deny := [];
     memfs.cwd := "/work" |}.

(** The same, with a project directory /work/demo already there. *)
Definition workWithDemo : memfs.MemFS :=
  {| memfs.entries := <[ "/work/demo" := memfs.Dir ]> {[ "/work" := memfs.Dir ]};
     memfs.deny := [];
     memfs.cwd := "/work" |}.

(** The same as [work], where no placeholder of a CLI project can be
    written. *)
Definition workNoPlaceholders : memfs.MemFS :=
  {| memfs.entries := {[ "/work" := memfs.Dir ]};
     memfs.deny :=
       map (fun dir => "/work/demo/" +:+ dir +:+ "/.gitkeep")
           (DirectoryStructure TypeCLI);
     memfs.cwd := "/work" |}.

Definition demoOf (t : ProjectType) : ProjectConfig :=
  {| ProjectName := "demo"; ModulePath := "demo"; Author := "Your Name";
     License := "MIT"; Type_ := t |}.

Definition demo : ProjectConfig := demoOf TypeCLI.

Definition demoFlags : main.Flags :=
  {| main.modulePath := ""; main.author := ""; main.license := "MIT";
     main.projectType := "cli"; main.dryRun := false;
     main.interactive := false |}.

(** The generator of the demo project of the given type under /work. *)
Definition gen (t : ProjectType) (dry : bool) : Generator :=
  New (demoOf t) "/work" dry.

(** Generate for it. *)
Definition generate (src : TemplateSource) (t : ProjectType) (dry : bool)
  (fs : memfs.MemFS) : Run (option error) :=
  @Generate memfs.os src keyOrder (gen t dry) fs.

(** The file system [work] once the directories of the demo project of
    the given type are there. *)
Definition ready (t : ProjectType) : memfs.MemFS :=
  final (@createDirectories memfs.os (gen t false) "/work/demo" work).

End fixture.

(* ===================================================================== *)
(** ** The directory policy *)
(* ===================================================================== *)

Section DirectoryPolicy.
Import templates.

Lemma DirectoryStructure_cases (t : ProjectType) :
  DirectoryStructure t = DirectoryStructure TypeLibrary
  \/ DirectoryStructure t = DirectoryStructure TypeCLI
  \/ DirectoryStructure t = DirectoryStructure TypeService.
Proof.
  unfold DirectoryStructure at 1 3 5.
  destruct (String.eqb_spec t TypeLibrary) as [-> | _]; [by left |].
  destruct (String.eqb_spec t TypeCLI) as [-> | _]; [by right; left |].
  destruct (String.eqb_spec t TypeService) as [-> | _]; [by right; right |].
  by right; left.
Qed.

Lemma DirectoryStructure_default (t : ProjectType) :
  t <> TypeCLI -> t <> TypeLibrary -> t <> TypeService ->
  DirectoryStructure t = DirectoryStructure TypeCLI.
Proof.
  intros Hcli Hlib Hsvc. unfold DirectoryStructure at 1.
  destruct (String.eqb_spec t TypeLibrary); [done |].
  destruct (String.eqb_spec t TypeCLI); [done |].
  destruct (String.eqb_spec t TypeService); [done |].
  reflexivity.
Qed.

(** C5. DirectoryStructure is a total function of the project type (a
    string): whatever the type, recognised or not, the list it returns is
    not empty and names no directory twice, and for a type that is none
    of cli, library and service it is the list of the CLI type. Being a
    function of its argument alone, it is deterministic and cannot fail. *)
Theorem DirectoryStructure_total_nonempty_nodup (t : ProjectType) :
  DirectoryStructure t <> []
  /\ NoDup (DirectoryStructure t)
  /\ (t <> TypeCLI -> t <> TypeLibrary -> t <> TypeService ->
      DirectoryStructure t = DirectoryStructure TypeCLI).
Proof.
  split; [| split].
  - destruct (DirectoryStructure_cases t) as [-> | [-> | ->]]; discriminate.
  - destruct (DirectoryStructure_cases t) as [-> | [-> | ->]];
      apply (bool_decide_unpack _); vm_compute; reflexivity.
  - apply DirectoryStructure_default.
Qed.

(** A project type the program does not know. *)
Lemma DirectoryStructure_total_nonempty_nodup_witness :
  DirectoryStructure "plugin" <> []
  /\ NoDup (DirectoryStructure "plugin")
  /\ DirectoryStructure "plugin" = DirectoryStructure TypeCLI.
Proof.
  destruct (DirectoryStructure_total_nonempty_nodup "plugin") as (Hne & Hnd & Hdef).
  split; [exact Hne | split; [exact Hnd |]].
  apply Hdef; discriminate.
Defined.

End DirectoryPolicy.

(* ===================================================================== *)
(** ** The project-name validator *)
(* ===================================================================== *)

Section Validator.
Import generator.

Lemma byteIn_In (c : ascii) (chars : string) :
  strings.byteIn c chars = true <-> In c (list_ascii_of_string chars).
Proof.
  induction chars as [| d chars IH]; simpl.
  - split; [discriminate | tauto].
  - rewrite orb_true_iff, IH, Ascii.eqb_eq. intuition congruence.
Qed.

Lemma ContainsAny_In (s chars : string) :
  strings.ContainsAny s chars = true
  <-> exists c, In c (list_ascii_of_string s)
                /\ In c (list_ascii_of_string chars).
Proof.
  induction s as [| c s IH]; simpl.
  - split; [discriminate | intros (c & [] & _)].
  - rewrite orb_true_iff, IH, byteIn_In. split.
    + intros [Hc | (d & Hd & Hin)]; [exists c | exists d]; tauto.
    + intros (d & [<- | Hd] & Hin); [by left | right; by exists d].
Qed.

(** C6. ValidateProjectName returns an error exactly for the empty name
    and for the names in which one of the reserved characters occurs, and
    it returns nil for every other name. *)
Theorem ValidateProjectName_rejects_exactly (name : string) :
  (ValidateProjectName name <> None
   <-> name = "" \/ exists c, In c (list_ascii_of_string name) /\ In c reserved)
  /\ (ValidateProjectName name = None
      <-> name <> "" /\ forall c, In c (list_ascii_of_string name) -> ~ In c reserved).
Proof.
  unfold ValidateProjectName.
  destruct (String.eqb_spec name "") as [-> | Hne].
  { split; split; try done; [by left | intros [? _]; done]. }
  destruct (strings.ContainsAny name _) eqn:Hany.
  - apply ContainsAny_In in Hany as (c & Hc & Hres).
    change (In c reserved) in Hres.
    split; split; try done.
    + intros _. right. by exists c.
    + intros [_ Hall]. destruct (Hall c Hc Hres).
  - assert (Hnone : forall c, In c (list_ascii_of_string name) -> ~ In c reserved).
    { intros c Hc Hres.
      assert (strings.ContainsAny name (" /\:*?" +:+ dquote +:+ "<>|") = true) as Ht
        by (apply ContainsAny_In; exists c; split; [exact Hc | exact Hres]).
      rewrite Ht in Hany. discriminate. }
    split; split; try done.
    intros [-> | (c & Hc & Hres)]; [done | destruct (Hnone c Hc Hres)].
Qed.

End Validator.

(* ===================================================================== *)
(** ** The configuration the [new] command hands to the generator *)
(* ===================================================================== *)

Section Defaults.
Import templates.
Context `{OS} `{TemplateSource} `{GoRuntime} `{config.Terminal}.

(** C8. Without the interactive mode, a valid project name and a valid
    project type give the generator a configuration whose ModulePath is
    the flag's value, or the project name when the flag is empty, and
    whose Author is the flag's value, or "Your Name" when the flag is
    empty. In particular the configuration demo, with no module path and
    no author, licence MIT and type cli, comes out with ModulePath demo
    and Author "Your Name". *)
Theorem runNew_fills_defaults (flags : main.Flags) (name : string) :
  main.interactive flags = false ->
  generator.ValidateProjectName name = None ->
  (main.projectType flags = TypeCLI \/ main.projectType flags = TypeLibrary
   \/ main.projectType flags = TypeService) ->
  main.runNew_config flags [name] =
    Ok {| ProjectName := name;
          ModulePath := if String.eqb (main.modulePath flags) "" then name
                        else main.modulePath flags;
          Author := if String.eqb (main.author flags) "" then "Your Name"
                    else main.author flags;
          License := main.license flags;
          Type_ := main.projectType flags |}
  /\ main.runNew_config fixture.demoFlags ["demo"] =
       Ok {| ProjectName := "demo"; ModulePath := "demo";
             Author := "Your Name"; License := "MIT"; Type_ := TypeCLI |}.
Proof.
  intros Hint Hname Htype. split; [| reflexivity].
  unfold main.runNew_config. rewrite Hint, Hname.
  assert (negb (String.eqb (main.projectType flags) TypeCLI)
          && negb (String.eqb (main.projectType flags) TypeLibrary)
          && negb (String.eqb (main.projectType flags) TypeService) = false) as ->.
  { destruct Htype as [-> | [-> | ->]]; reflexivity. }
  cbn [ModulePath Author ProjectName License Type_].
  destruct (String.eqb (main.modulePath flags) "");
    cbn [ModulePath Author ProjectName License Type_];
    destruct (String.eqb (main.author flags) ""); reflexivity.
Qed.

End Defaults.

(** The demo scenario of the command line. *)
Lemma runNew_fills_defaults_witness :
  @main.runNew_config submitAsIs fixture.demoFlags ["demo"] =
    Ok {| templates.ProjectName := "demo"; templates.ModulePath := "demo";
          templates.Author := "Your Name"; templates.License := "MIT";
          templates.Type_ := templates.TypeCLI |}.
Proof.
  refine (proj1 (@runNew_fills_defaults submitAsIs fixture.demoFlags "demo" _ _ _)).
  - reflexivity.
  - reflexivity.
  - left. reflexivity.
Defined.

(* ===================================================================== *)
(** ** Sequencing, loops and their events *)
(* ===================================================================== *)

Lemma writeAttempts_app (tr1 tr2 : list Event) :
  writeAttempts (tr1 ++ tr2) = writeAttempts tr1 ++ writeAttempts tr2.
Proof. apply flat_map_app. Qed.

Lemma attempted_app (tr1 tr2 : list Event) :
  attempted (tr1 ++ tr2) = attempted tr1 ++ attempted tr2.
Proof. unfold attempted. by rewrite writeAttempts_app, map_app. Qed.

Section Sequencing.
Context `{OS}.

Lemma ifErr_ok (m k : M (option error)) (wrap : error -> error) (fs : FS) :
  value (m fs) = None ->
  ifErr m wrap k fs =
    {| value := value (k (final (m fs)));
       final := final (k (final (m fs)));
       events := events (m fs) ++ events (k (final (m fs))) |}.
Proof. intros Hm. unfold ifErr, bind. rewrite Hm. reflexivity. Qed.

Lemma ifErr_err (m k : M (option error)) (wrap : error -> error) (fs : FS)
    (err : error) :
  value (m fs) = Some err ->
  ifErr m wrap k fs =
    {| value := Some (wrap err); final := final (m fs);
       events := events (m fs) ++ [] |}.
Proof. intros Hm. unfold ifErr, bind. rewrite Hm. reflexivity. Qed.

(** A sequence returns nil only if both of its parts do. *)
Lemma ifErr_None (m k : M (option error)) (wrap : error -> error) (fs : FS) :
  value (ifErr m wrap k fs) = None ->
  value (m fs) = None /\ value (k (final (m fs))) = None.
Proof.
  destruct (value (m fs)) as [err |] eqn:Hm.
  - rewrite (ifErr_err _ _ _ _ _ Hm). discriminate.
  - rewrite (ifErr_ok _ _ _ _ Hm). cbn. done.
Qed.

(** The error of a sequence depends on its second part only through the
    error of that part. *)
Lemma ifErr_value_ext (m k1 k2 : M (option error)) (wrap : error -> error) :
  (forall fs, value (k1 fs) = value (k2 fs)) ->
  forall fs, value (ifErr m wrap k1 fs) = value (ifErr m wrap k2 fs).
Proof.
  intros Hk fs. destruct (value (m fs)) as [err |] eqn:Hm.
  - by rewrite !(ifErr_err _ _ _ _ _ Hm).
  - rewrite !(ifErr_ok _ _ _ _ Hm). cbn. apply Hk.
Qed.

Lemma ifErr_value_ext_first (m1 m2 k : M (option error)) (wrap : error -> error)
    (fs : FS) (v : option error) :
  value (m1 fs) = value (m2 fs) ->
  (forall fs', value (k fs') = v) ->
  value (ifErr m1 wrap k fs) = value (ifErr m2 wrap k fs).
Proof.
  intros Hm Hk. destruct (value (m2 fs)) as [err |] eqn:Hm2.
  - by rewrite (ifErr_err _ _ _ _ _ Hm), (ifErr_err _ _ _ _ _ Hm2).
  - rewrite (ifErr_ok _ _ _ _ Hm), (ifErr_ok _ _ _ _ Hm2). cbn.
    by rewrite !Hk.
Qed.

(** What a loop that ran to its end has done, seen through an observation
    [obs] of the events that is compatible with concatenation: the
    observations of its rounds, in order. *)
Lemma forRange_observed {A B} (obs : list Event -> list B) (h : A -> list B)
    (body : A -> M (option error)) :
  obs [] = [] ->
  (forall tr1 tr2, obs (tr1 ++ tr2) = obs tr1 ++ obs tr2) ->
  (forall x fs, value (body x fs) = None -> obs (events (body x fs)) = h x) ->
  forall l fs,
    value (forRange l body fs) = None ->
    obs (events (forRange l body fs)) = flat_map h l.
Proof.
  intros Hnil Happ Hbody l. induction l as [| x l IH]; intros fs Hv.
  - exact Hnil.
  - cbn [forRange] in *. apply ifErr_None in Hv as Hparts.
    destruct Hparts as [Hx Hl].
    rewrite (ifErr_ok _ _ _ _ Hx). cbn.
    rewrite Happ, (Hbody _ _ Hx), (IH _ Hl). reflexivity.
Qed.

Lemma osWriteFile_attempted (path : string) (data : bytes) (perm : N) (fs : FS) :
  writeAttempts (events (osWriteFile path data perm fs)) = [(path, data)].
Proof. unfold osWriteFile. destruct (WriteFile _ _ _ _). reflexivity. Qed.

Lemma osWriteFile_value (path : string) (data : bytes) (perm : N) (fs : FS) :
  value (osWriteFile path data perm fs) = (WriteFile path data perm fs).2.
Proof. unfold osWriteFile. destruct (WriteFile _ _ _ _). reflexivity. Qed.

End Sequencing.

Section Binding.
Context `{OS}.

Lemma bind_value {A B} (m : M A) (k : A -> M B) (fs : FS) :
  value (bind m k fs) = value (k (value (m fs)) (final (m fs))).
Proof. reflexivity. Qed.

Lemma bind_final {A B} (m : M A) (k : A -> M B) (fs : FS) :
  final (bind m k fs) = final (k (value (m fs)) (final (m fs))).
Proof. reflexivity. Qed.

Lemma bind_events {A B} (m : M A) (k : A -> M B) (fs : FS) :
  events (bind m k fs) = events (m fs) ++ events (k (value (m fs)) (final (m fs))).
Proof. reflexivity. Qed.

(** os.Stat changes nothing and performs no event: what follows it runs
    from the same file system. *)
Lemma bind_osStat {B} (path : string) (k : option error -> M B) (fs : FS) :
  bind (osStat path) k fs = k (Stat path fs) fs.
Proof.
  unfold bind, osStat. cbn [value final events].
  destruct (k (Stat path fs) fs). reflexivity.
Qed.

Lemma printsOnly_ret {A} (a : A) : printsOnly (ret a).
Proof. intros fs. split; [reflexivity | constructor]. Qed.

Lemma printsOnly_print (s : string) : printsOnly (print s).
Proof. intros fs. split; [reflexivity | repeat constructor]. Qed.

Lemma printsOnly_bind {A B} (m : M A) (k : A -> M B) :
  printsOnly m -> (forall a, printsOnly (k a)) -> printsOnly (bind m k).
Proof.
  intros Hm Hk fs. destruct (Hm fs) as [Hfs Hev].
  destruct (Hk (value (m fs)) (final (m fs))) as [Hfs' Hev'].
  rewrite bind_final, bind_events. split.
  - by rewrite Hfs', Hfs.
  - apply Forall_app. by split.
Qed.

Lemma printsOnly_ifErr (m k : M (option error)) (wrap : error -> error) :
  printsOnly m -> printsOnly k -> printsOnly (ifErr m wrap k).
Proof.
  intros Hm Hk. apply printsOnly_bind; [exact Hm |].
  intros [err |]; [apply printsOnly_ret | exact Hk].
Qed.

Lemma printsOnly_forRange {A} (l : list A) (body : A -> M (option error)) :
  (forall x, printsOnly (body x)) -> printsOnly (forRange l body).
Proof.
  intros Hbody. induction l as [| x l IH]; [apply printsOnly_ret |].
  cbn [forRange]. by apply printsOnly_ifErr.
Qed.

(** Events that are all prints contain no call of MkdirAll or WriteFile. *)
Lemma prints_no_attempts (tr : list Event) :
  Forall isPrint tr -> mkdirAttempts tr = [] /\ writeAttempts tr = [].
Proof.
  induction 1 as [| ev tr Hp _ [IHm IHw]]; [done |].
  destruct ev; try destruct Hp. by split.
Qed.

End Binding.

(* ===================================================================== *)
(** ** Generate: the existence check and the dry run *)
(* ===================================================================== *)

Section DryRun.
Import templates generator.
Context `{OS} `{TemplateSource} `{GoRuntime}.

Lemma preview_printsOnly (g : Generator) : printsOnly (preview g).
Proof.
  unfold preview.
  repeat first
    [ apply printsOnly_bind; [| intros ?]
    | apply printsOnly_print
    | apply printsOnly_ret
    | apply printsOnly_forRange; intros ? ].
Qed.

Lemma preview_nil (g : Generator) (fs : FS) : value (preview g fs) = None.
Proof. reflexivity. Qed.

(** What Generate is in dry-run mode when nothing is at the target path:
    the notice, then the preview. *)
Lemma Generate_dry_run (g : Generator) (fs : FS) :
  dryRun g = true ->
  Stat (filepath.Join [baseDir g; ProjectName (config g)]) fs <> None ->
  Generate g fs =
    (print ("Dry run mode - no files will be created" +:+ nl) ;; preview g) fs.
Proof.
  intros Hdry Hstat. unfold Generate. rewrite bind_osStat.
  destruct (Stat _ fs) as [e |]; [| done]. by rewrite Hdry.
Qed.

(** C4. When an entry is already at base directory + project name
    (os.Stat gives no error for it), Generate returns the already-exists
    error, leaves the file system as it was and performs no event at
    all, whatever the dry-run flag: the check comes before the two modes
    part. *)
Theorem Generate_already_exists (g : Generator) (fs : FS) :
  Stat (filepath.Join [baseDir g; ProjectName (config g)]) fs = None ->
  Generate g fs =
    {| value := Some ("directory "
                      +:+ filepath.Join [baseDir g; ProjectName (config g)]
                      +:+ " already exists");
       final := fs;
       events := [] |}.
Proof.
  intros Hstat. unfold Generate. rewrite bind_osStat, Hstat. reflexivity.
Qed.

(** C3. In dry-run mode, when nothing is at the target path, Generate
    leaves the file system exactly as it found it, so the parent
    directory of the target has the entries it had, and every event it
    performs is a print: no directory is asked for and no file is
    written. *)
Theorem Generate_dry_run_no_mutation (g : Generator) (fs : FS) :
  dryRun g = true ->
  Stat (filepath.Join [baseDir g; ProjectName (config g)]) fs <> None ->
  final (Generate g fs) = fs
  /\ Forall isPrint (events (Generate g fs))
  /\ mkdirAttempts (events (Generate g fs)) = []
  /\ writeAttempts (events (Generate g fs)) = [].
Proof.
  intros Hdry Hstat. rewrite (Generate_dry_run g fs Hdry Hstat).
  assert (printsOnly (print ("Dry run mode - no files will be created" +:+ nl) ;;
                      preview g)) as Hpure.
  { apply printsOnly_bind; [apply printsOnly_print |].
    intros _. apply preview_printsOnly. }
  destruct (Hpure fs) as [Hfs Hev].
  split; [exact Hfs | split; [exact Hev |]].
  by apply prints_no_attempts.
Qed.

End DryRun.

Section TemplateSources.
Import templates generator.
Context `{OS} `{GoRuntime}.

(** C10. In dry-run mode, when nothing is at the target path, Generate
    returns nil for every configuration and every template source, and
    the whole run is the same for any two template sources: the preview
    resolves no template and no static file, so a template source that
    makes real generation fail goes unnoticed. *)
Theorem Generate_dry_run_ignores_templates (ts1 ts2 : TemplateSource)
    (g : Generator) (fs : FS) :
  dryRun g = true ->
  Stat (filepath.Join [baseDir g; ProjectName (config g)]) fs <> None ->
  value (@Generate _ ts1 _ g fs) = None
  /\ @Generate _ ts1 _ g fs = @Generate _ ts2 _ g fs.
Proof.
  intros Hdry Hstat.
  rewrite (@Generate_dry_run _ ts1 _ g fs Hdry Hstat).
  rewrite (@Generate_dry_run _ ts2 _ g fs Hdry Hstat).
  split; reflexivity.
Qed.

End TemplateSources.

(* ===================================================================== *)
(** ** Real generation: what is written, and from what *)
(* ===================================================================== *)


Section Writes.
Import templates generator.
Context `{OS} `{TemplateSource} `{GoRuntime}.

(** A generateFile that returned nil made one write: the rendering of
    its template, at its destination. *)
Lemma generateFile_attempted (g : Generator) (projectPath fileName templateName : string)
    (fs : FS) :
  value (generateFile g projectPath fileName templateName fs) = None ->
  attempted (events (generateFile g projectPath fileName templateName fs)) =
    [(filepath.Join [projectPath; fileName], rendered g templateName)].
Proof.
  unfold generateFile, rendered.
  destruct (GetTemplate templateName) as [tmpl | err]; [| discriminate].
  destruct (Execute tmpl (config g)) as [buf | err]; [| discriminate].
  intros Hv. apply ifErr_None in Hv as [Hw _].
  rewrite (ifErr_ok _ _ _ _ Hw). cbn. rewrite app_nil_r.
  unfold attempted. by rewrite osWriteFile_attempted.
Qed.

(** A copyWorkflowFile that returned nil made one write: the bytes of the
    source file, at its destination. *)
Lemma copyWorkflowFile_attempted (g : Generator) (projectPath destPath srcPath : string)
    (fs : FS) :
  value (copyWorkflowFile g projectPath destPath srcPath fs) = None ->
  attempted (events (copyWorkflowFile g projectPath destPath srcPath fs)) =
    [(filepath.Join [projectPath; destPath], GetWorkflowFile srcPath)].
Proof.
  unfold copyWorkflowFile.
  destruct (GetWorkflowFile srcPath) as [content | err]; [| discriminate].
  intros Hv. apply ifErr_None in Hv as [Hw _].
  rewrite (ifErr_ok _ _ _ _ Hw). cbn. rewrite app_nil_r.
  unfold attempted. by rewrite osWriteFile_attempted.
Qed.

(** The map of the common workflows has one entry, so every order of
    ranging over it is the same. *)
Lemma rangeOrder_commonWorkflows :
  rangeOrder commonWorkflows =
    [(".github/workflows/test.yml", ".github/workflows/test.yml")].
Proof.
  apply Permutation_singleton_r.
  rewrite rangeOrder_perm. unfold commonWorkflows.
  by rewrite map_to_list_singleton.
Qed.

Lemma generateWorkflowFiles_attempted (g : Generator) (projectPath : string) (fs : FS) :
  value (generateWorkflowFiles g projectPath fs) = None ->
  attempted (events (generateWorkflowFiles g projectPath fs)) =
    [ (filepath.Join [projectPath; ".github/workflows/test.yml"],
       GetWorkflowFile ".github/workflows/test.yml");
      (filepath.Join [projectPath; ".github/workflows/release.yml"],
       rendered g (releaseWorkflow g)) ].
Proof.
  unfold generateWorkflowFiles. rewrite rangeOrder_commonWorkflows.
  intros Hv. apply ifErr_None in Hv as Hparts. destruct Hparts as [Hcommon Hrelease].
  rewrite (ifErr_ok _ _ _ _ Hcommon). cbn [events].
  rewrite attempted_app, (generateFile_attempted _ _ _ _ _ Hrelease).
  cbn [forRange] in *. apply ifErr_None in Hcommon as Hcopy. destruct Hcopy as [Hcopy _].
  rewrite (ifErr_ok _ _ _ _ Hcopy). cbn [events ret]. rewrite app_nil_r.
  by rewrite (copyWorkflowFile_attempted _ _ _ _ _ Hcopy).
Qed.

(** The placeholder step never returns an error. *)
Lemma createGitkeepFiles_nil (g : Generator) (projectPath : string) (fs : FS) :
  value (createGitkeepFiles g projectPath fs) = None.
Proof.
  unfold createGitkeepFiles.
  generalize (DirectoryStructure (Type_ (config g))) as dirs. intros dirs.
  assert (value (forRange dirs (fun dir =>
            if default false (skipDirs !! dir) then ret None
            else
              err <- osWriteFile (filepath.Join [projectPath; dir; ".gitkeep"]) ""
                       perm_0644 ;;
              match err with
              | Some _ => ret None
              | None => ret None
              end) fs) = None) as Hloop.
  { revert fs. induction dirs as [| dir dirs IH]; intros fs; [reflexivity |].
    cbn [forRange]. rewrite ifErr_ok; [apply IH |].
    destruct (default false (skipDirs !! dir)); [reflexivity |].
    unfold bind. cbn. by destruct (value (osWriteFile _ _ _ _)). }
  rewrite (ifErr_ok _ _ _ _ Hloop). reflexivity.
Qed.

Lemma skipDirs_cmd (dir : string) :
  default false (skipDirs !! dir) = bool_decide (dir = "cmd").
Proof.
  unfold skipDirs. case_bool_decide as Hd.
  - subst. by rewrite lookup_singleton_eq.
  - by rewrite lookup_singleton_ne.
Qed.

(** The placeholder step attempts one empty .gitkeep in every policy
    directory but cmd, in the order of the policy, whether or not the
    writes go through. *)
Lemma createGitkeepFiles_attempted (g : Generator) (projectPath : string) (fs : FS) :
  writeAttempts (events (createGitkeepFiles g projectPath fs)) =
    map (fun dir => (filepath.Join [projectPath; dir; ".gitkeep"], ""))
        (filter (fun dir => dir <> "cmd") (DirectoryStructure (Type_ (config g)))).
Proof.
  pose proof (createGitkeepFiles_nil g projectPath fs) as Hnil.
  unfold createGitkeepFiles in *.
  apply ifErr_None in Hnil as [Hloop _].
  rewrite (ifErr_ok _ _ _ _ Hloop). cbn [events ret]. rewrite app_nil_r.
  rewrite (forRange_observed writeAttempts
             (fun dir => if bool_decide (dir = "cmd") then []
                         else [(filepath.Join [projectPath; dir; ".gitkeep"], "")]));
    [| reflexivity | apply writeAttempts_app | | exact Hloop].
  - generalize (DirectoryStructure (Type_ (config g))) as dirs.
    induction dirs as [| dir dirs IH]; [reflexivity |].
    cbn [flat_map]. rewrite filter_cons, IH.
    case_bool_decide; case_decide; try done.
  - intros dir fs' _. rewrite skipDirs_cmd.
    case_bool_decide; [reflexivity |].
    unfold bind. cbn [events]. rewrite writeAttempts_app, osWriteFile_attempted.
    by destruct (value (osWriteFile _ _ _ _)).
Qed.

End Writes.

Section Plan.
Import templates generator.
Context `{OS} `{TemplateSource} `{GoRuntime}.

Lemma flat_map_singleton {A B} (f : A -> B) (l : list A) :
  flat_map (fun x => [f x]) l = map f l.
Proof. induction l as [| x l IH]; [reflexivity |]. cbn. by rewrite IH. Qed.

(** The entries of the map generateFiles ranges over. *)
Lemma files_entries (g : Generator) :
  rangeOrder (files g) ≡ₚ
    [ ("README.md", "README.md.tmpl"); ("Makefile", getMakefileTemplate g);
      (".gitignore", "gitignore.tmpl"); ("go.mod", "go.mod.tmpl") ]
    ++ (if String.eqb (Type_ (config g)) TypeService
        then [("Dockerfile", "Dockerfile-service.tmpl")] else []).
Proof.
  rewrite rangeOrder_perm. unfold files.
  assert (map_to_list
            (<[ "go.mod" := "go.mod.tmpl" ]>
             (<[ ".gitignore" := "gitignore.tmpl" ]>
              (<[ "Makefile" := getMakefileTemplate g ]>
               ({[ "README.md" := "README.md.tmpl" ]} : gmap string string))))
          ≡ₚ [ ("README.md", "README.md.tmpl"); ("Makefile", getMakefileTemplate g);
               (".gitignore", "gitignore.tmpl"); ("go.mod", "go.mod.tmpl") ]) as Hcore.
  { rewrite map_to_list_insert by (by simplify_map_eq).
    rewrite map_to_list_insert by (by simplify_map_eq).
    rewrite map_to_list_insert by (by simplify_map_eq).
    rewrite map_to_list_singleton.
    symmetry.
    apply (Permutation_rev [ ("README.md", "README.md.tmpl");
                             ("Makefile", getMakefileTemplate g);
                             (".gitignore", "gitignore.tmpl");
                             ("go.mod", "go.mod.tmpl") ]). }
  destruct (String.eqb (Type_ (config g)) TypeService).
  - rewrite map_to_list_insert by (by simplify_map_eq).
    rewrite Hcore. apply Permutation_cons_append.
  - by rewrite Hcore, app_nil_r.
Qed.

(** Everything a generateFiles that returned nil wrote or tried to write:
    the core files in the order of the range, the entry point, the two
    workflow files and the placeholders. *)
Lemma generateFiles_attempted (g : Generator) (projectPath : string) (fs : FS) :
  value (generateFiles g projectPath fs) = None ->
  attempted (events (generateFiles g projectPath fs)) =
    map (fun '(fileName, templateName) =>
           (filepath.Join [projectPath; fileName], rendered g templateName))
        (rangeOrder (files g)
         ++ [(filepath.Join ["cmd"; ProjectName (config g); "main.go"], "main.go.tmpl")])
    ++ [ (filepath.Join [projectPath; ".github/workflows/test.yml"],
          GetWorkflowFile ".github/workflows/test.yml");
         (filepath.Join [projectPath; ".github/workflows/release.yml"],
          rendered g (releaseWorkflow g)) ]
    ++ map (fun dir => (filepath.Join [projectPath; dir; ".gitkeep"], Ok ""))
           (filter (fun dir => dir <> "cmd") (DirectoryStructure (Type_ (config g)))).
Proof.
  unfold generateFiles. intros Hv.
  apply ifErr_None in Hv as Hparts. destruct Hparts as [Hcore Hrest1].
  rewrite (ifErr_ok _ _ _ _ Hcore). cbn [events].
  apply ifErr_None in Hrest1 as Hparts. destruct Hparts as [Hmain Hrest2].
  rewrite (ifErr_ok _ _ _ _ Hmain). cbn [events].
  apply ifErr_None in Hrest2 as Hparts. destruct Hparts as [Hwork Hrest3].
  rewrite (ifErr_ok _ _ _ _ Hwork). cbn [events].
  apply ifErr_None in Hrest3 as Hparts. destruct Hparts as [Hkeep _].
  rewrite (ifErr_ok _ _ _ _ Hkeep). cbn [events ret]. rewrite app_nil_r.
  rewrite !attempted_app, map_app.
  rewrite (generateFile_attempted _ _ _ _ _ Hmain).
  rewrite (generateWorkflowFiles_attempted _ _ _ Hwork).
  rewrite <- !app_assoc. f_equal; [| f_equal; f_equal].
  - rewrite <- flat_map_singleton.
    apply (forRange_observed attempted); [reflexivity | apply attempted_app | | exact Hcore].
    intros [fileName templateName] fs'. apply generateFile_attempted.
  - unfold attempted at 1. rewrite createGitkeepFiles_attempted, map_map. reflexivity.
Qed.

Lemma generateFiles_value (g : Generator) (projectPath : string) (fs : FS) :
  value (generateFiles g projectPath fs)
  = value (generateFiles_without_placeholders g projectPath fs).
Proof.
  unfold generateFiles, generateFiles_without_placeholders.
  do 3 (apply ifErr_value_ext; clear fs; intros fs).
  rewrite ifErr_ok by apply createGitkeepFiles_nil. reflexivity.
Qed.

(** C9. The placeholder step attempts an empty .gitkeep in every
    directory of DirectoryStructure except cmd, whether or not the
    individual writes succeed, and it always returns nil; so generateFiles
    returns what it returns without that step, and so does a real-mode
    Generate: no placeholder failure aborts the run or reaches the
    caller. *)
Theorem placeholders_best_effort (g : Generator) (projectPath : string) (fs : FS) :
  value (createGitkeepFiles g projectPath fs) = None
  /\ writeAttempts (events (createGitkeepFiles g projectPath fs)) =
       map (fun dir => (filepath.Join [projectPath; dir; ".gitkeep"], ""))
           (filter (fun dir => dir <> "cmd") (DirectoryStructure (Type_ (config g))))
  /\ value (generateFiles g projectPath fs)
     = value (generateFiles_without_placeholders g projectPath fs)
  /\ (dryRun g = false ->
      value (Generate g fs) = value (Generate_without_placeholders g fs)).
Proof.
  split; [apply createGitkeepFiles_nil |].
  split; [apply createGitkeepFiles_attempted |].
  split; [apply generateFiles_value |].
  intros Hreal. unfold Generate, Generate_without_placeholders.
  rewrite Hreal. unfold bind at 1 3, osStat. cbn [value final].
  destruct (Stat _ fs) as [e |]; [| reflexivity].
  do 2 (apply ifErr_value_ext; clear fs; intros fs).
  apply (ifErr_value_ext_first _ _ _ _ _ None); [apply generateFiles_value |].
  reflexivity.
Qed.

(** C7. In a real-mode generation whose generateFiles returned nil, the
    core files written are README.md, Makefile, .gitignore and go.mod,
    and for the service type, and for no other, one Dockerfile besides;
    they are followed by the entry point, the test workflow, the release
    workflow and the placeholders. The Makefile and the release workflow
    are rendered from the service variants for the service type, from the
    library variants for the library type and from the CLI variants for
    every other type. *)
Theorem generateFiles_variants (g : Generator) (projectPath : string) (fs : FS) :
  value (generateFiles g projectPath fs) = None ->
  let t := Type_ (config g) in
  rangeOrder (files g) ≡ₚ
    [ ("README.md", "README.md.tmpl"); ("Makefile", getMakefileTemplate g);
      (".gitignore", "gitignore.tmpl"); ("go.mod", "go.mod.tmpl") ]
    ++ (if String.eqb t TypeService
        then [("Dockerfile", "Dockerfile-service.tmpl")] else [])
  /\ attempted (events (generateFiles g projectPath fs)) =
       map (fun '(fileName, templateName) =>
              (filepath.Join [projectPath; fileName], rendered g templateName))
           (rangeOrder (files g)
            ++ [(filepath.Join ["cmd"; ProjectName (config g); "main.go"],
                 "main.go.tmpl")])
       ++ [ (filepath.Join [projectPath; ".github/workflows/test.yml"],
             GetWorkflowFile ".github/workflows/test.yml");
            (filepath.Join [projectPath; ".github/workflows/release.yml"],
             rendered g (releaseWorkflow g)) ]
       ++ map (fun dir => (filepath.Join [projectPath; dir; ".gitkeep"], Ok ""))
              (filter (fun dir => dir <> "cmd") (DirectoryStructure t))
  /\ (t = TypeService ->
      getMakefileTemplate g = "Makefile-service.tmpl"
      /\ releaseWorkflow g = ".github/workflows/release-service.yml")
  /\ (t = TypeLibrary ->
      getMakefileTemplate g = "Makefile-library.tmpl"
      /\ releaseWorkflow g = ".github/workflows/release-library.yml")
  /\ (t <> TypeService -> t <> TypeLibrary ->
      getMakefileTemplate g = "Makefile-cli.tmpl"
      /\ releaseWorkflow g = ".github/workflows/release-cli.yml").
Proof.
  intros Hv t.
  split; [apply files_entries |].
  split; [by apply generateFiles_attempted |].
  unfold getMakefileTemplate, releaseWorkflow. fold t.
  split; [| split].
  - intros ->. by split.
  - intros ->. by split.
  - intros Hsvc Hlib.
    destruct (String.eqb_spec t TypeLibrary); [done |].
    destruct (String.eqb_spec t TypeService); [done |].
    by destruct (String.eqb t TypeCLI).
Qed.

(** C2, as the program has it. In a generateWorkflowFiles that returned
    nil, the test workflow written is the content of its file in the
    template source, byte for byte, and the release workflow written is
    the output of executing, against the configuration, the template
    parsed from the release file selected by the project type. *)
Theorem workflows_copied_and_rendered (g : Generator) (projectPath : string) (fs : FS) :
  value (generateWorkflowFiles g projectPath fs) = None ->
  exists (test release : bytes) (tmpl : Template) (out : bytes),
    ReadFile "files/.github/workflows/test.yml" = Ok test
    /\ ReadFile ("files/" +:+ releaseWorkflow g) = Ok release
    /\ Parse (releaseWorkflow g) release = Ok tmpl
    /\ Execute tmpl (config g) = Ok out
    /\ writeAttempts (events (generateWorkflowFiles g projectPath fs)) =
         [ (filepath.Join [projectPath; ".github/workflows/test.yml"], test);
           (filepath.Join [projectPath; ".github/workflows/release.yml"], out) ].
Proof.
  intros Hv. pose proof (generateWorkflowFiles_attempted _ _ _ Hv) as Hatt.
  unfold attempted in Hatt.
  destruct (writeAttempts _) as [| [p1 d1] [| [p2 d2] [| ? ?]]]; try discriminate.
  cbn in Hatt. injection Hatt as -> Htest -> Hrel.
  unfold GetWorkflowFile in Htest. unfold rendered, GetTemplate in Hrel.
  destruct (ReadFile ("files/" +:+ releaseWorkflow g)) as [release | ?] eqn:Hread;
    [| discriminate].
  destruct (Parse (releaseWorkflow g) release) as [tmpl | ?] eqn:Hparse;
    [| discriminate].
  exists d1, release, tmpl, d2. by repeat split.
Qed.

End Plan.

(* ===================================================================== *)
(** ** The program run on explicit inputs *)
(* ===================================================================== *)

Section Runs.
Import templates generator.

(** C1, evaluated. For the demo CLI project under an empty /work, the dry
    run and the real run both return nil; the dry run reports the policy
    directories, cmd/demo and the five core files, while the real run
    also creates .github/workflows, the two workflow files and a
    .gitkeep in every policy directory but cmd, none of which the dry
    run reports. So the preview does not predict what is created. *)
Theorem preview_omits_workflows_and_placeholders :
  let dry := fixture.generate fixture.ts TypeCLI true fixture.work in
  let real := fixture.generate fixture.ts TypeCLI false fixture.work in
  value dry = None
  /\ value real = None
  /\ reported (stdout (events dry)) =
       [ "cmd/"; "internal/"; "pkg/"; "api/"; "configs/"; "scripts/"; "build/";
         "test/"; "docs/"; "examples/"; "cmd/demo/"; "README.md"; "Makefile";
         ".gitignore"; "go.mod"; "cmd/demo/main.go" ]
  /\ created (events real) =
       [ "/work/demo"; "/work/demo/cmd"; "/work/demo/internal"; "/work/demo/pkg";
         "/work/demo/api"; "/work/demo/configs"; "/work/demo/scripts";
         "/work/demo/build"; "/work/demo/test"; "/work/demo/docs";
         "/work/demo/examples"; "/work/demo/cmd/demo";
         "/work/demo/.github/workflows"; "/work/demo/go.mod";
         "/work/demo/Makefile"; "/work/demo/.gitignore"; "/work/demo/README.md";
         "/work/demo/cmd/demo/main.go";
         "/work/demo/.github/workflows/test.yml";
         "/work/demo/.github/workflows/release.yml";
         "/work/demo/internal/.gitkeep"; "/work/demo/pkg/.gitkeep";
         "/work/demo/api/.gitkeep"; "/work/demo/configs/.gitkeep";
         "/work/demo/scripts/.gitkeep"; "/work/demo/build/.gitkeep";
         "/work/demo/test/.gitkeep"; "/work/demo/docs/.gitkeep";
         "/work/demo/examples/.gitkeep" ]
  /\ ~ @preview_predicts_created memfs.os fixture.ts keyOrder.
Proof.
  cbv zeta.
  split; [vm_compute; reflexivity |].
  split; [vm_compute; reflexivity |].
  split; [vm_compute; reflexivity |].
  split; [vm_compute; reflexivity |].
  intros Hclaim.
  specialize (Hclaim fixture.demo "/work" fixture.work).
  cbv zeta in Hclaim.
  assert (value (@Generate memfs.os fixture.ts keyOrder
                   (New fixture.demo "/work" false) fixture.work) = None) as Hreal
    by (vm_compute; reflexivity).
  specialize (Hclaim Hreal "/work/demo/.github/workflows/test.yml").
  destruct Hclaim as [Hclaim _]; [vm_compute; discriminate |].
  assert (In "/work/demo/.github/workflows/test.yml"
             (created (events (@Generate memfs.os fixture.ts keyOrder
                                 (New fixture.demo "/work" false) fixture.work)))) as Hin.
  { vm_compute. do 18 right. left. reflexivity. }
  apply Hclaim in Hin. vm_compute in Hin.
  repeat (destruct Hin as [Hin | Hin]; [discriminate Hin |]).
  exact Hin.
Qed.

(** C2, refuted as stated. With a release file that names the project
    through a field action, what is written to release.yml is the
    rendering, not the bytes of the file in the template source. *)
Lemma release_workflow_is_rendered :
  ~ @release_copied_unmodified memfs.os fixture.ts keyOrder.
Proof.
  intros Hclaim.
  specialize (Hclaim (fixture.gen TypeCLI false) "/work/demo"
                (fixture.ready TypeCLI) "name: release demo").
  assert (@GetWorkflowFile fixture.ts (releaseWorkflow (fixture.gen TypeCLI false))
          = Ok "name: release {{.ProjectName}}") as Hraw
    by (vm_compute; reflexivity).
  rewrite Hraw in Hclaim.
  assert (Ok "name: release {{.ProjectName}}" = Ok "name: release demo") as Habs;
    [| discriminate Habs].
  apply Hclaim.
  - vm_compute. reflexivity.
  - vm_compute. right. left. reflexivity.
Qed.

End Runs.

(* ===================================================================== *)
(** ** The theorems at work on the explicit inputs *)
(* ===================================================================== *)

Section Instances.
Import templates generator.

(** The existence check on /work with a demo directory in it. *)
Lemma Generate_already_exists_witness :
  fixture.generate fixture.ts TypeCLI true fixture.workWithDemo =
    @Build_Run memfs.os _ (Some "directory /work/demo already exists")
      fixture.workWithDemo [].
Proof.
  apply (@Generate_already_exists memfs.os fixture.ts keyOrder
           (fixture.gen TypeCLI true) fixture.workWithDemo).
  vm_compute. reflexivity.
Defined.

(** The dry run of the demo project under an empty /work. *)
Lemma Generate_dry_run_no_mutation_witness :
  final (fixture.generate fixture.ts TypeCLI true fixture.work) = fixture.work
  /\ Forall isPrint (events (fixture.generate fixture.ts TypeCLI true fixture.work))
  /\ mkdirAttempts (events (fixture.generate fixture.ts TypeCLI true fixture.work)) = []
  /\ writeAttempts (events (fixture.generate fixture.ts TypeCLI true fixture.work)) = [].
Proof.
  apply (@Generate_dry_run_no_mutation memfs.os fixture.ts keyOrder
           (fixture.gen TypeCLI true) fixture.work).
  - reflexivity.
  - vm_compute. discriminate.
Defined.

(** The dry run with no template at all and with every template. *)
Lemma Generate_dry_run_ignores_templates_witness :
  value (fixture.generate fixture.noTemplates TypeCLI true fixture.work) = None
  /\ fixture.generate fixture.noTemplates TypeCLI true fixture.work
     = fixture.generate fixture.ts TypeCLI true fixture.work.
Proof.
  apply (@Generate_dry_run_ignores_templates memfs.os keyOrder
           fixture.noTemplates fixture.ts (fixture.gen TypeCLI true) fixture.work).
  - reflexivity.
  - vm_compute. discriminate.
Defined.

(** Real generation where no placeholder can be written. *)
Lemma placeholders_best_effort_witness :
  value (fixture.generate fixture.ts TypeCLI false fixture.workNoPlaceholders)
  = value (@Generate_without_placeholders memfs.os fixture.ts keyOrder
             (fixture.gen TypeCLI false) fixture.workNoPlaceholders).
Proof.
  apply (@placeholders_best_effort memfs.os fixture.ts keyOrder
           (fixture.gen TypeCLI false) "/work/demo" fixture.workNoPlaceholders).
  reflexivity.
Defined.

(** The files of the demo service, generated into its directories. *)
Lemma generateFiles_variants_witness :
  rangeOrder (files (fixture.gen TypeService false)) ≡ₚ
    [ ("README.md", "README.md.tmpl"); ("Makefile", "Makefile-service.tmpl");
      (".gitignore", "gitignore.tmpl"); ("go.mod", "go.mod.tmpl");
      ("Dockerfile", "Dockerfile-service.tmpl") ]
  /\ getMakefileTemplate (fixture.gen TypeService false) = "Makefile-service.tmpl"
  /\ releaseWorkflow (fixture.gen TypeService false)
     = ".github/workflows/release-service.yml".
Proof.
  destruct (@generateFiles_variants memfs.os fixture.ts keyOrder
              (fixture.gen TypeService false) "/work/demo"
              (fixture.ready TypeService))
    as (Hfiles & _ & Hservice & _ & _).
  - vm_compute. reflexivity.
  - destruct (Hservice eq_refl) as [Hmake Hrelease].
    split; [exact Hfiles | split; [exact Hmake | exact Hrelease]].
Defined.

(** The workflow files of the demo CLI project. *)
Lemma workflows_copied_and_rendered_witness :
  exists (test release : bytes) (tmpl : @Template fixture.ts) (out : bytes),
    @ReadFile fixture.ts "files/.github/workflows/test.yml" = Ok test
    /\ @ReadFile fixture.ts ("files/" +:+ releaseWorkflow (fixture.gen TypeCLI false))
       = Ok release
    /\ @Parse fixture.ts (releaseWorkflow (fixture.gen TypeCLI false)) release = Ok tmpl
    /\ @Execute fixture.ts tmpl (config (fixture.gen TypeCLI false)) = Ok out
    /\ writeAttempts
         (events (@generateWorkflowFiles memfs.os fixture.ts keyOrder
                    (fixture.gen TypeCLI false) "/work/demo" (fixture.ready TypeCLI))) =
         [ (filepath.Join ["/work/demo"; ".github/workflows/test.yml"], test);
           (filepath.Join ["/work/demo"; ".github/workflows/release.yml"], out) ].
Proof.
  apply (@workflows_copied_and_rendered memfs.os fixture.ts keyOrder
           (fixture.gen TypeCLI false) "/work/demo" (fixture.ready TypeCLI)).
  vm_compute. reflexivity.
Defined.

(** Without its templates, real generation stops at the first template it
    asks for, while the dry run of the same project returns nil. *)
Example real_generation_needs_templates :
  value (fixture.generate fixture.noTemplates TypeCLI false fixture.work)
  = Some "failed to load template go.mod.tmpl: open files/go.mod.tmpl: file does not exist"
  /\ value (fixture.generate fixture.noTemplates TypeCLI true fixture.work) = None.
Proof. split; vm_compute; reflexivity. Qed.

(** When no placeholder can be written, real generation still returns
    nil, having written everything else. *)
Example placeholder_failures_do_not_abort :
  let run := fixture.generate fixture.ts TypeCLI false fixture.workNoPlaceholders in
  value run = None
  /\ In ("/work/demo/internal/.gitkeep", "") (writeAttempts (events run))
  /\ memfs.readFile (final run) "/work/demo/internal/.gitkeep" = None
  /\ memfs.readFile (final run) "/work/demo/go.mod" = Some "module demo".
Proof.
  cbv zeta. split; [| split; [| split]]; vm_compute; try reflexivity.
  do 7 right. left. reflexivity.
Qed.

(** The three project types, generated for real: only the service gets a
    Dockerfile, and each gets the Makefile and the release workflow of
    its own variant. The test workflow keeps its braces, the release
    workflow has its field filled in. *)
Example generated_variants :
  let service := final (fixture.generate fixture.ts TypeService false fixture.work) in
  let library := final (fixture.generate fixture.ts TypeLibrary false fixture.work) in
  let cli := final (fixture.generate fixture.ts TypeCLI false fixture.work) in
  memfs.readFile service "/work/demo/Dockerfile" = Some "FROM golang"
  /\ memfs.readFile library "/work/demo/Dockerfile" = None
  /\ memfs.readFile cli "/work/demo/Dockerfile" = None
  /\ memfs.readFile service "/work/demo/Makefile" = Some "SERVICE=demo"
  /\ memfs.readFile library "/work/demo/Makefile" = Some "LIBRARY=demo"
  /\ memfs.readFile cli "/work/demo/Makefile" = Some "BINARY_NAME=demo"
  /\ memfs.readFile service "/work/demo/.github/workflows/release.yml"
     = Some "name: release service demo"
  /\ memfs.readFile library "/work/demo/.github/workflows/release.yml"
     = Some "name: release library demo"
  /\ memfs.readFile cli "/work/demo/.github/workflows/release.yml"
     = Some "name: release demo"
  /\ memfs.readFile cli "/work/demo/.github/workflows/test.yml"
     = Some "go: ${{ matrix.go }}".
Proof.
  cbv zeta.
  repeat match goal with |- _ /\ _ => split end; vm_compute; reflexivity.
Qed.

(** An existing project directory stops both modes before anything is
    done. *)
Example existing_project_stops_both_modes :
  fixture.generate fixture.ts TypeCLI false fixture.workWithDemo
  = fixture.generate fixture.ts TypeCLI true fixture.workWithDemo
  /\ events (fixture.generate fixture.ts TypeCLI false fixture.workWithDemo) = [].
Proof. split; vm_compute; reflexivity. Qed.

(** The model of filepath.Clean and filepath.Join on some paths. *)
Example Clean_examples :
  filepath.Clean "/a//b/./c/.." = "/a/b"
  /\ filepath.Clean "../../x/../y" = "../../y"
  /\ filepath.Clean "/.." = "/"
  /\ filepath.Clean "a/.." = "."
  /\ filepath.Join ["/work"; "demo"] = "/work/demo"
  /\ filepath.Join [""; "demo"] = "demo"
  /\ filepath.Join ["/work/demo"; "cmd"; "demo"; "main.go"]
     = "/work/demo/cmd/demo/main.go".
Proof. repeat split; reflexivity. Qed.

(** The validator on some names. *)
Example ValidateProjectName_examples :
  ValidateProjectName "demo" = None
  /\ ValidateProjectName "" = Some "project name cannot be empty"
  /\ ValidateProjectName "my app" = Some "project name contains invalid characters"
  /\ ValidateProjectName "a/b" = Some "project name contains invalid characters"
  /\ ValidateProjectName ".." = None.
Proof. repeat split; reflexivity. Qed.

End Instances.

(* ===================================================================== *)
(** ** Kinds of events, and stopping at the first failure *)
(* ===================================================================== *)

Section Kinds.
Context `{OS}.

Lemma performs_ret (P : Event -> Prop) {A} (a : A) : performs P (ret a).
Proof. intros fs. constructor. Qed.

Lemma performs_bind (P : Event -> Prop) {A B} (m : M A) (k : A -> M B) :
  performs P m -> (forall a, performs P (k a)) -> performs P (bind m k).
Proof.
  intros Hm Hk fs. rewrite bind_events. apply Forall_app. split; [apply Hm | apply Hk].
Qed.

Lemma performs_ifErr (P : Event -> Prop) (m k : M (option error)) (wrap : error -> error) :
  performs P m -> performs P k -> performs P (ifErr m wrap k).
Proof.
  intros Hm Hk. apply performs_bind; [exact Hm |].
  intros [err |]; [apply performs_ret | exact Hk].
Qed.

Lemma performs_forRange (P : Event -> Prop) {A} (l : list A)
    (body : A -> M (option error)) :
  (forall x, performs P (body x)) -> performs P (forRange l body).
Proof.
  intros Hbody. induction l as [| x l IH]; [apply performs_ret |].
  cbn [forRange]. by apply performs_ifErr.
Qed.

Lemma performs_osMkdirAll (path : string) (perm : N) :
  performs isMkdir (osMkdirAll path perm).
Proof.
  intros fs. unfold osMkdirAll. destruct (MkdirAll _ _ _). repeat constructor.
Qed.

Lemma performs_osWriteFile (path : string) (data : bytes) (perm : N) :
  performs isWrite (osWriteFile path data perm).
Proof.
  intros fs. unfold osWriteFile. destruct (WriteFile _ _ _ _). repeat constructor.
Qed.

Lemma performs_print (s : string) : performs isPrint (print s).
Proof. intros fs. repeat constructor. Qed.

Lemma performs_weaken (P Q : Event -> Prop) {A} (m : M A) :
  (forall ev, P ev -> Q ev) -> performs P m -> performs Q m.
Proof. intros HPQ Hm fs. eapply Forall_impl; [apply Hm | exact HPQ]. Qed.

Lemma mkdirs_only (tr : list Event) :
  Forall isMkdir tr -> writeAttempts tr = [] /\ stdout tr = [].
Proof.
  induction 1 as [| ev tr Hk _ [IHw IHs]]; [done |].
  destruct ev; try destruct Hk. by split.
Qed.

Lemma writes_only (tr : list Event) :
  Forall isWrite tr -> mkdirAttempts tr = [] /\ stdout tr = [].
Proof.
  induction 1 as [| ev tr Hk _ [IHw IHs]]; [done |].
  destruct ev; try destruct Hk. by split.
Qed.

Lemma mkdirAttempts_app (tr1 tr2 : list Event) :
  mkdirAttempts (tr1 ++ tr2) = mkdirAttempts tr1 ++ mkdirAttempts tr2.
Proof. apply flat_map_app. Qed.

Lemma stdout_app (tr1 tr2 : list Event) :
  stdout (tr1 ++ tr2) = stdout tr1 ++ stdout tr2.
Proof. apply flat_map_app. Qed.

Lemma stopsAtFailure_ret_nil : stopsAtFailure (ret None).
Proof. intros fs. constructor. Qed.

Lemma stopsAtFailure_ifErr (m k : M (option error)) (wrap : error -> error) :
  stopsAtFailure m -> stopsAtFailure k -> stopsAtFailure (ifErr m wrap k).
Proof.
  intros Hm Hk fs. specialize (Hm fs).
  destruct (value (m fs)) as [err |] eqn:Hv.
  - rewrite (ifErr_err _ _ _ _ _ Hv). cbn [value events]. by rewrite app_nil_r.
  - rewrite (ifErr_ok _ _ _ _ Hv). cbn [value events].
    specialize (Hk (final (m fs))).
    destruct (value (k (final (m fs)))) as [err |].
    + destruct Hk as (tr & ev & -> & Hok & Hbad).
      exists (events (m fs) ++ tr), ev.
      split; [by rewrite app_assoc |]. split; [| exact Hbad].
      apply Forall_app. by split.
    + apply Forall_app. by split.
Qed.

Lemma stopsAtFailure_forRange {A} (l : list A) (body : A -> M (option error)) :
  (forall x, stopsAtFailure (body x)) -> stopsAtFailure (forRange l body).
Proof.
  intros Hbody. induction l as [| x l IH]; [apply stopsAtFailure_ret_nil |].
  cbn [forRange]. by apply stopsAtFailure_ifErr.
Qed.

Lemma stopsAtFailure_osMkdirAll (path : string) (perm : N) :
  stopsAtFailure (osMkdirAll path perm).
Proof.
  intros fs. unfold osMkdirAll. destruct (MkdirAll _ _ _) as [fs' [err |]]; cbn.
  - exists [], (EvMkdirAll path (Some err)). repeat split; [constructor | discriminate].
  - repeat constructor.
Qed.

Lemma stopsAtFailure_osWriteFile (path : string) (data : bytes) (perm : N) :
  stopsAtFailure (osWriteFile path data perm).
Proof.
  intros fs. unfold osWriteFile. destruct (WriteFile _ _ _ _) as [fs' [err |]]; cbn.
  - exists [], (EvWriteFile path data (Some err)).
    repeat split; [constructor | discriminate].
  - repeat constructor.
Qed.

(** What a loop has done when all its rounds are observed alike, whether
    they fail or not: the observations of its first rounds, and of all of
    them when it ran to its end. *)
Lemma forRange_observed_prefix {A B} (obs : list Event -> list B) (h : A -> list B)
    (body : A -> M (option error)) :
  obs [] = [] ->
  (forall tr1 tr2, obs (tr1 ++ tr2) = obs tr1 ++ obs tr2) ->
  (forall x fs, obs (events (body x fs)) = h x) ->
  forall l fs,
    exists n,
      obs (events (forRange l body fs)) = flat_map h (take n l)
      /\ (value (forRange l body fs) = None -> n = length l).
Proof.
  intros Hnil Happ Hbody l. induction l as [| x l IH]; intros fs.
  - exists 0. by split.
  - cbn [forRange]. destruct (value (body x fs)) as [err |] eqn:Hv.
    + exists 1. rewrite (ifErr_err _ _ _ _ _ Hv). cbn [value events].
      rewrite app_nil_r, Hbody. cbn. rewrite app_nil_r. by split.
    + destruct (IH (final (body x fs))) as (n & Hobs & Hlen).
      exists (S n). rewrite (ifErr_ok _ _ _ _ Hv). cbn [value events].
      rewrite Happ, Hbody, Hobs. split; [reflexivity |].
      intros Hnone. cbn. by rewrite (Hlen Hnone).
Qed.

End Kinds.

(* ===================================================================== *)
(** ** createDirectories *)
(* ===================================================================== *)

Section Directories.
Import templates generator.
Context `{OS}.

Lemma osMkdirAll_attempted (path : string) (perm : N) (fs : FS) :
  mkdirAttempts (events (osMkdirAll path perm fs)) = [path].
Proof. unfold osMkdirAll. destruct (MkdirAll _ _ _). reflexivity. Qed.

Lemma mkdir_step_attempted (path : string) (wrap : error -> error) (fs : FS) :
  mkdirAttempts (events (ifErr (osMkdirAll path perm_0755) wrap (ret None) fs)) = [path].
Proof.
  destruct (value (osMkdirAll path perm_0755 fs)) as [err |] eqn:Hv.
  - rewrite (ifErr_err _ _ _ _ _ Hv). cbn [events].
    by rewrite app_nil_r, osMkdirAll_attempted.
  - rewrite (ifErr_ok _ _ _ _ Hv). cbn [events ret].
    by rewrite app_nil_r, osMkdirAll_attempted.
Qed.

Lemma createDirectories_performs_mkdir (g : Generator) (projectPath : string) :
  performs isMkdir (createDirectories g projectPath).
Proof.
  unfold createDirectories.
  repeat first
    [ apply performs_ifErr
    | apply performs_forRange; intros ?
    | apply performs_osMkdirAll
    | apply performs_ret ].
Qed.

(** The directories createDirectories asks for are, in this order, the
    policy directories below the project path, cmd/<project name> and
    .github/workflows: a run that fails has asked for the first of them, a
    run that returns nil for all of them. It writes no file and prints
    nothing. *)
Theorem createDirectories_asks_for (g : Generator) (projectPath : string) (fs : FS) :
  let plan :=
    map (fun dir => filepath.Join [projectPath; dir])
        (DirectoryStructure (Type_ (config g)))
    ++ [ filepath.Join [projectPath; "cmd"; ProjectName (config g)];
         filepath.Join [projectPath; ".github"; "workflows"] ] in
  let run := createDirectories g projectPath fs in
  mkdirAttempts (events run) `prefix_of` plan
  /\ (value run = None -> mkdirAttempts (events run) = plan)
  /\ writeAttempts (events run) = []
  /\ stdout (events run) = [].
Proof.
  intros plan run.
  assert (mkdirAttempts (events run) `prefix_of` plan
          /\ (value run = None -> mkdirAttempts (events run) = plan)) as [Hpre Hall].
  { subst run plan. unfold createDirectories.
    set (dirs := DirectoryStructure (Type_ (config g))).
    set (body := fun dir : string =>
                   ifErr (osMkdirAll (filepath.Join [projectPath; dir]) perm_0755)
                     (fun err => "failed to create directory " +:+ dir +:+ ": " +:+ err)
                     (ret None)).
    destruct (forRange_observed_prefix mkdirAttempts
                (fun dir => [filepath.Join [projectPath; dir]]) body
                eq_refl mkdirAttempts_app
                (fun dir fs' => mkdir_step_attempted _ _ fs') dirs fs)
      as (n & Hloop & Hlen).
    rewrite flat_map_singleton in Hloop.
    destruct (value (forRange dirs body fs)) as [err |] eqn:Hv.
    - rewrite (ifErr_err _ _ _ _ _ Hv). cbn [value events].
      rewrite app_nil_r, Hloop. split; [| discriminate].
      exists (map (fun dir => filepath.Join [projectPath; dir]) (drop n dirs)
              ++ [ filepath.Join [projectPath; "cmd"; ProjectName (config g)];
                   filepath.Join [projectPath; ".github"; "workflows"] ]).
      by rewrite app_assoc, <- map_app, take_drop.
    - rewrite (ifErr_ok _ _ _ _ Hv). cbn [value events].
      rewrite (Hlen eq_refl), firstn_all in Hloop.
      set (fs1 := final (forRange dirs body fs)).
      rewrite mkdirAttempts_app, Hloop.
      destruct (value (osMkdirAll (filepath.Join [projectPath; "cmd"; ProjectName (config g)])
                         perm_0755 fs1)) as [err |] eqn:Hcmd.
      + rewrite (ifErr_err _ _ _ _ _ Hcmd). cbn [value events].
        rewrite app_nil_r, osMkdirAll_attempted. split; [| discriminate].
        exists [filepath.Join [projectPath; ".github"; "workflows"]].
        by rewrite <- app_assoc.
      + rewrite (ifErr_ok _ _ _ _ Hcmd). cbn [value events].
        rewrite mkdirAttempts_app, osMkdirAll_attempted, mkdir_step_attempted.
        split; [exists []; by rewrite app_nil_r | reflexivity]. }
  split; [exact Hpre | split; [exact Hall |]].
  apply mkdirs_only, createDirectories_performs_mkdir.
Qed.

(** createDirectories stops at the first MkdirAll that fails: it returns
    nil exactly when every call went through, and when it returns an error
    the failed call is the last thing it did. *)
Theorem createDirectories_fail_fast (g : Generator) (projectPath : string) :
  stopsAtFailure (createDirectories g projectPath).
Proof.
  unfold createDirectories.
  repeat first
    [ apply stopsAtFailure_ifErr
    | apply stopsAtFailure_forRange; intros ?
    | apply stopsAtFailure_osMkdirAll
    | apply stopsAtFailure_ret_nil ].
Qed.

End Directories.

(* ===================================================================== *)
(** ** generateFile and copyWorkflowFile: errors and the single write *)
(* ===================================================================== *)

Section SingleFile.
Import templates generator.
Context `{OS} `{TemplateSource} `{GoRuntime}.

Lemma write_step (path : string) (data : bytes) (wrap : error -> error) (fs : FS) :
  let run := ifErr (osWriteFile path data perm_0644) wrap (ret None) fs in
  events run = [EvWriteFile path data (WriteFile path data perm_0644 fs).2]
  /\ (value run = None <-> (WriteFile path data perm_0644 fs).2 = None)
  /\ final run = (WriteFile path data perm_0644 fs).1.
Proof.
  cbv zeta. unfold ifErr. rewrite bind_events, bind_value, bind_final.
  unfold osWriteFile. destruct (WriteFile path data perm_0644 fs) as [fs' [err |]];
    cbn [value final events fst snd ret]; repeat split; done.
Qed.

(** generateFile either fails on its template, and then it has touched
    nothing, or makes exactly one call of WriteFile, with the rendering of
    the template at the destination below the project path, and returns nil
    exactly when that call went through. *)
Theorem generateFile_outcomes (g : Generator)
    (projectPath fileName templateName : string) (fs : FS) :
  let run := generateFile g projectPath fileName templateName fs in
  let filePath := filepath.Join [projectPath; fileName] in
  match rendered g templateName with
  | Err _ => value run <> None /\ final run = fs /\ events run = []
  | Ok buf =>
      events run = [EvWriteFile filePath buf (WriteFile filePath buf perm_0644 fs).2]
      /\ (value run = None <-> (WriteFile filePath buf perm_0644 fs).2 = None)
      /\ final run = (WriteFile filePath buf perm_0644 fs).1
  end.
Proof.
  cbv zeta. unfold rendered, generateFile.
  destruct (GetTemplate templateName) as [tmpl | err]; [| by repeat split].
  destruct (Execute tmpl (config g)) as [buf | err]; [| by repeat split].
  apply write_step.
Qed.

(** copyWorkflowFile either fails on reading its source file, and then it
    has touched nothing, or makes exactly one call of WriteFile, with the
    bytes of the source file, and returns nil exactly when that call went
    through. *)
Theorem copyWorkflowFile_outcomes (g : Generator)
    (projectPath destPath srcPath : string) (fs : FS) :
  let run := copyWorkflowFile g projectPath destPath srcPath fs in
  let filePath := filepath.Join [projectPath; destPath] in
  match GetWorkflowFile srcPath with
  | Err _ => value run <> None /\ final run = fs /\ events run = []
  | Ok content =>
      events run
      = [EvWriteFile filePath content (WriteFile filePath content perm_0644 fs).2]
      /\ (value run = None <-> (WriteFile filePath content perm_0644 fs).2 = None)
      /\ final run = (WriteFile filePath content perm_0644 fs).1
  end.
Proof.
  cbv zeta. unfold copyWorkflowFile.
  destruct (GetWorkflowFile srcPath) as [content | err]; [| by repeat split].
  apply write_step.
Qed.

Lemma generateFile_performs_write (g : Generator)
    (projectPath fileName templateName : string) :
  performs isWrite (generateFile g projectPath fileName templateName).
Proof.
  unfold generateFile.
  destruct (GetTemplate templateName) as [tmpl | err]; [| apply performs_ret].
  destruct (Execute tmpl (config g)) as [buf | err]; [| apply performs_ret].
  apply performs_ifErr; [apply performs_osWriteFile | apply performs_ret].
Qed.

Lemma copyWorkflowFile_performs_write (g : Generator)
    (projectPath destPath srcPath : string) :
  performs isWrite (copyWorkflowFile g projectPath destPath srcPath).
Proof.
  unfold copyWorkflowFile.
  destruct (GetWorkflowFile srcPath) as [content | err]; [| apply performs_ret].
  apply performs_ifErr; [apply performs_osWriteFile | apply performs_ret].
Qed.

Lemma createGitkeepFiles_performs_write (g : Generator) (projectPath : string) :
  performs isWrite (createGitkeepFiles g projectPath).
Proof.
  unfold createGitkeepFiles.
  apply performs_ifErr; [| apply performs_ret].
  apply performs_forRange. intros dir.
  destruct (default false (skipDirs !! dir)); [apply performs_ret |].
  apply performs_bind; [apply performs_osWriteFile |].
  intros [err |]; apply performs_ret.
Qed.

Lemma generateWorkflowFiles_performs_write (g : Generator) (projectPath : string) :
  performs isWrite (generateWorkflowFiles g projectPath).
Proof.
  unfold generateWorkflowFiles.
  apply performs_ifErr; [| apply generateFile_performs_write].
  apply performs_forRange. intros [filePath templatePath].
  apply copyWorkflowFile_performs_write.
Qed.

Lemma generateFiles_performs_write (g : Generator) (projectPath : string) :
  performs isWrite (generateFiles g projectPath).
Proof.
  unfold generateFiles.
  apply performs_ifErr.
  { apply performs_forRange. intros [fileName templateName].
    apply generateFile_performs_write. }
  apply performs_ifErr; [apply generateFile_performs_write |].
  apply performs_ifErr; [apply generateWorkflowFiles_performs_write |].
  apply performs_ifErr; [apply createGitkeepFiles_performs_write | apply performs_ret].
Qed.

Lemma attempted_Ok (tr : list Event) (path : string) (r : result bytes) :
  In (path, r) (attempted tr) -> exists data, r = Ok data.
Proof.
  unfold attempted. rewrite in_map_iff. intros ([p d] & Heq & _).
  injection Heq as _ <-. by exists d.
Qed.

(** A generateFiles that returned nil has found and rendered every
    template it is given: those of the map of core files, whatever the
    order of the range, the entry point, and the release workflow, and it
    has read the test workflow. So a template source that lacks one of
    them makes real generation fail. *)
Theorem generateFiles_needs_every_template (g : Generator) (projectPath : string)
    (fs : FS) :
  value (generateFiles g projectPath fs) = None ->
  (forall fileName templateName,
     files g !! fileName = Some templateName ->
     exists data, rendered g templateName = Ok data)
  /\ (exists data, rendered g "main.go.tmpl" = Ok data)
  /\ (exists data, GetWorkflowFile ".github/workflows/test.yml" = Ok data)
  /\ (exists data, rendered g (releaseWorkflow g) = Ok data).
Proof.
  intros Hv. pose proof (generateFiles_attempted _ _ _ Hv) as Hatt.
  assert (forall path r,
            In (path, r)
               (map (fun '(fileName, templateName) =>
                       (filepath.Join [projectPath; fileName], rendered g templateName))
                    (rangeOrder (files g)
                     ++ [(filepath.Join ["cmd"; ProjectName (config g); "main.go"],
                          "main.go.tmpl")])
                ++ [ (filepath.Join [projectPath; ".github/workflows/test.yml"],
                      GetWorkflowFile ".github/workflows/test.yml");
                     (filepath.Join [projectPath; ".github/workflows/release.yml"],
                      rendered g (releaseWorkflow g)) ]) ->
            exists data, r = Ok data) as Hok.
  { intros path r Hin. apply (attempted_Ok (events (generateFiles g projectPath fs)) path).
    rewrite Hatt, app_assoc. apply in_or_app. by left. }
  split; [| split; [| split]].
  - intros fileName templateName Hlook.
    apply (Hok (filepath.Join [projectPath; fileName])).
    apply in_or_app. left. apply in_map_iff. exists (fileName, templateName).
    split; [reflexivity |]. apply in_or_app. left.
    apply list_elem_of_In. rewrite rangeOrder_perm. by apply elem_of_map_to_list.
  - eapply Hok. apply in_or_app. left. apply in_map_iff.
    exists (filepath.Join ["cmd"; ProjectName (config g); "main.go"], "main.go.tmpl").
    split; [reflexivity |]. apply in_or_app. right. by left.
  - eapply Hok. apply in_or_app. right. by left.
  - eapply Hok. apply in_or_app. right. right. by left.
Qed.

End SingleFile.

(* ===================================================================== *)
(** ** Generate in real mode: directories, then files, then the message *)
(* ===================================================================== *)

Section RealMode.
Import templates generator.
Context `{OS} `{TemplateSource} `{GoRuntime}.

Lemma osMkdirAll_ok (path : string) (perm : N) (fs : FS) :
  value (osMkdirAll path perm fs) = None ->
  Forall okEvent (events (osMkdirAll path perm fs)).
Proof.
  intros Hv. pose proof (stopsAtFailure_osMkdirAll path perm fs) as Hstop.
  by rewrite Hv in Hstop.
Qed.

(** The shape of every real-mode run of Generate. *)
Lemma Generate_real_shape (g : Generator) (fs : FS) :
  dryRun g = false ->
  let projectPath := filepath.Join [baseDir g; ProjectName (config g)] in
  let fs1 := final (osMkdirAll projectPath perm_0755 fs) in
  let fs2 := final (createDirectories g projectPath fs1) in
  exists mk wr : list Event,
    events (Generate g fs)
    = mk ++ wr
      ++ match value (Generate g fs) with
         | None => [EvPrint ("✓ Project " +:+ ProjectName (config g)
                             +:+ " created successfully at " +:+ projectPath +:+ nl)]
         | Some _ => []
         end
    /\ Forall isMkdir mk
    /\ Forall isWrite wr
    /\ (~ Forall okEvent mk -> wr = [])
    /\ (wr = [] \/ wr = events (generateFiles g projectPath fs2))
    /\ (value (Generate g fs) = None ->
        mk = events (osMkdirAll projectPath perm_0755 fs)
             ++ events (createDirectories g projectPath fs1)
        /\ value (createDirectories g projectPath fs1) = None
        /\ wr = events (generateFiles g projectPath fs2)
        /\ value (generateFiles g projectPath fs2) = None).
Proof.
  intros Hreal projectPath fs1 fs2. unfold Generate. fold projectPath.
  rewrite bind_osStat. destruct (Stat projectPath fs) as [e |].
  2:{ exists [], []. cbn [value events ret].
      split; [| split; [| split; [| split; [| split]]]]; try done;
        first [by left | constructor]. }
  rewrite Hreal.
  destruct (value (osMkdirAll projectPath perm_0755 fs)) as [err |] eqn:Hmk.
  { rewrite (ifErr_err _ _ _ _ _ Hmk). cbn [value events].
    exists (events (osMkdirAll projectPath perm_0755 fs)), [].
    split; [| split; [| split; [| split; [| split]]]]; try done;
      first [by left | apply performs_osMkdirAll | constructor]. }
  rewrite (ifErr_ok _ _ _ _ Hmk). cbn [value events]. fold fs1.
  assert (Forall isMkdir (events (osMkdirAll projectPath perm_0755 fs)
                          ++ events (createDirectories g projectPath fs1))) as Hkind.
  { apply Forall_app. split;
      [apply performs_osMkdirAll | apply createDirectories_performs_mkdir]. }
  destruct (value (createDirectories g projectPath fs1)) as [err |] eqn:Hcd.
  { rewrite (ifErr_err _ _ _ _ _ Hcd). cbn [value events].
    exists (events (osMkdirAll projectPath perm_0755 fs)
            ++ events (createDirectories g projectPath fs1)), [].
    rewrite !app_nil_r.
    split; [| split; [| split; [| split; [| split]]]]; try done;
      first [by left | constructor]. }
  rewrite (ifErr_ok _ _ _ _ Hcd). cbn [value events]. fold fs2.
  assert (Forall okEvent (events (osMkdirAll projectPath perm_0755 fs)
                          ++ events (createDirectories g projectPath fs1))) as Hok.
  { apply Forall_app. split; [by apply osMkdirAll_ok |].
    pose proof (createDirectories_fail_fast g projectPath fs1) as Hstop.
    by rewrite Hcd in Hstop. }
  exists (events (osMkdirAll projectPath perm_0755 fs)
          ++ events (createDirectories g projectPath fs1)),
         (events (generateFiles g projectPath fs2)).
  destruct (value (generateFiles g projectPath fs2)) as [err |] eqn:Hgf.
  - rewrite (ifErr_err _ _ _ _ _ Hgf). cbn [value events].
    rewrite !app_nil_r, <- app_assoc.
    split; [| split; [| split; [| split; [| split]]]]; try done;
      first [by right | apply generateFiles_performs_write].
  - rewrite (ifErr_ok _ _ _ _ Hgf). cbn [value events].
    rewrite bind_value, bind_events. cbn [value events print ret].
    rewrite <- !app_assoc.
    split; [| split; [| split; [| split; [| split]]]]; try done;
      first [by right | apply generateFiles_performs_write].
Qed.

(** In real mode Generate first asks for directories, then writes files,
    then prints: its events are MkdirAll calls followed by WriteFile calls
    followed by the success message, which is there exactly when Generate
    returns nil; and when a MkdirAll has failed no file is written. *)
Theorem Generate_real_directories_before_files (g : Generator) (fs : FS) :
  dryRun g = false ->
  exists mk wr : list Event,
    events (Generate g fs)
    = mk ++ wr
      ++ match value (Generate g fs) with
         | None =>
             [EvPrint ("✓ Project " +:+ ProjectName (config g)
                       +:+ " created successfully at "
                       +:+ filepath.Join [baseDir g; ProjectName (config g)] +:+ nl)]
         | Some _ => []
         end
    /\ Forall isMkdir mk
    /\ Forall isWrite wr
    /\ (~ Forall okEvent mk -> wr = []).
Proof.
  intros Hreal.
  destruct (Generate_real_shape g fs Hreal) as (mk & wr & Hev & Hmk & Hwr & Hfail & _ & _).
  by exists mk, wr.
Qed.

(** In real mode Generate prints its success message when it returns nil,
    and nothing at all when it returns an error. *)
Theorem Generate_real_output (g : Generator) (fs : FS) :
  dryRun g = false ->
  stdout (events (Generate g fs))
  = match value (Generate g fs) with
    | None =>
        ["✓ Project " +:+ ProjectName (config g) +:+ " created successfully at "
         +:+ filepath.Join [baseDir g; ProjectName (config g)] +:+ nl]
    | Some _ => []
    end.
Proof.
  intros Hreal.
  destruct (Generate_real_shape g fs Hreal) as (mk & wr & Hev & Hmk & Hwr & _).
  rewrite Hev, !stdout_app.
  rewrite (proj2 (mkdirs_only _ Hmk)), (proj2 (writes_only _ Hwr)).
  by destruct (value (Generate g fs)).
Qed.

(** The directories a successful real-mode Generate has asked for: the
    project directory, every policy directory below it, cmd/<project name>
    and .github/workflows, so always more than the policy directories. *)
Theorem Generate_real_directories (g : Generator) (fs : FS) :
  dryRun g = false ->
  value (Generate g fs) = None ->
  let projectPath := filepath.Join [baseDir g; ProjectName (config g)] in
  mkdirAttempts (events (Generate g fs))
  = projectPath
    :: map (fun dir => filepath.Join [projectPath; dir])
           (DirectoryStructure (Type_ (config g)))
    ++ [ filepath.Join [projectPath; "cmd"; ProjectName (config g)];
         filepath.Join [projectPath; ".github"; "workflows"] ].
Proof.
  intros Hreal Hv projectPath.
  destruct (Generate_real_shape g fs Hreal) as (mk & wr & Hev & _ & Hwr & _ & _ & Hsucc).
  destruct (Hsucc Hv) as (-> & Hcd & _ & _).
  rewrite Hev, Hv, !mkdirAttempts_app.
  rewrite (proj1 (writes_only _ Hwr)), osMkdirAll_attempted.
  destruct (createDirectories_asks_for g projectPath
              (final (osMkdirAll projectPath perm_0755 fs))) as (_ & Hplan & _).
  fold projectPath. rewrite (Hplan Hcd). cbn [mkdirAttempts flat_map].
  by rewrite !app_nil_r.
Qed.

End RealMode.

Lemma Permutation_map_inj {A B} (f : A -> B) (l1 l2 : list A) :
  (forall x y, f x = f y -> x = y) ->
  map f l1 ≡ₚ map f l2 -> l1 ≡ₚ l2.
Proof.
  intros Hinj Hperm.
  destruct (Permutation_map_inv _ _ Hperm) as (l3 & Heq & Hl3).
  assert (l1 = l3) as ->; [| by symmetry].
  clear -Hinj Heq. revert l3 Heq.
  induction l1 as [| x l1 IH]; intros [| y l3] Heq; try discriminate; [done |].
  cbn in Heq. injection Heq as Hxy Hrest.
  by rewrite (Hinj _ _ Hxy), (IH _ Hrest).
Qed.

Section RangeOrder.
Import templates generator.
Context `{OS} `{TemplateSource}.

(** The order in which the runtime ranges over the map of core files only
    permutes what a successful real-mode Generate writes: two successful
    runs under two orders, even from different file systems, attempt the
    same writes with the same contents. *)
Theorem Generate_writes_up_to_range_order (rt1 rt2 : GoRuntime) (g : Generator)
    (fs fs' : FS) :
  dryRun g = false ->
  value (@Generate _ _ rt1 g fs) = None ->
  value (@Generate _ _ rt2 g fs') = None ->
  writeAttempts (events (@Generate _ _ rt1 g fs))
  ≡ₚ writeAttempts (events (@Generate _ _ rt2 g fs')).
Proof.
  intros Hreal Hv1 Hv2.
  assert (forall (rt : GoRuntime) (fs0 : FS),
            value (@Generate _ _ rt g fs0) = None ->
            exists fs2,
              attempted (events (@Generate _ _ rt g fs0))
              = attempted (events (@generateFiles _ _ rt g
                                     (filepath.Join [baseDir g; ProjectName (config g)]) fs2))
              /\ value (@generateFiles _ _ rt g
                          (filepath.Join [baseDir g; ProjectName (config g)]) fs2) = None)
    as Hgf.
  { intros rt fs0 Hv.
    destruct (@Generate_real_shape _ _ rt g fs0 Hreal)
      as (mk & wr & Hev & Hmk & _ & _ & _ & Hsucc).
    destruct (Hsucc Hv) as (_ & _ & -> & Hgfv).
    eexists. split; [| exact Hgfv].
    rewrite Hev, Hv, !attempted_app. unfold attempted at 1 3.
    rewrite (proj1 (mkdirs_only _ Hmk)). cbn. by rewrite app_nil_r. }
  destruct (Hgf rt1 fs Hv1) as (fs1 & Heq1 & Hgf1).
  destruct (Hgf rt2 fs' Hv2) as (fs2 & Heq2 & Hgf2).
  assert (attempted (events (@Generate _ _ rt1 g fs))
          ≡ₚ attempted (events (@Generate _ _ rt2 g fs'))) as Hperm.
  { rewrite Heq1, Heq2.
    rewrite (@generateFiles_attempted _ _ rt1 _ _ _ Hgf1).
    rewrite (@generateFiles_attempted _ _ rt2 _ _ _ Hgf2).
    rewrite !map_app. apply Permutation_app; [| reflexivity].
    apply Permutation_app; [| reflexivity].
    apply Permutation_map.
    by rewrite (@rangeOrder_perm rt1), (@rangeOrder_perm rt2). }
  unfold attempted in Hperm.
  apply (Permutation_map_inj (fun pd : string * bytes => (pd.1, Ok pd.2)));
    [| exact Hperm].
  intros [p1 d1] [p2 d2] Heq. cbn in Heq. by injection Heq as -> ->.
Qed.

End RangeOrder.

(* ===================================================================== *)
(** ** The [new] command *)
(* ===================================================================== *)

Section Prompting.
Import templates.
Context `{config.Terminal}.

(** A successful PromptForMissingConfig leaves a configuration with an
    author, with a module path unless the project has no name, and with
    the project name it was given when it was given one. When the form
    fails, the error says so. *)
Theorem PromptForMissingConfig_fills (cfg : ProjectConfig) :
  match config.PromptForMissingConfig cfg with
  | (cfg', None) =>
      Author cfg' <> ""
      /\ (ModulePath cfg' = "" -> ProjectName cfg' = "")
      /\ (ProjectName cfg <> "" -> ProjectName cfg' = ProjectName cfg)
  | (_, Some err) =>
      exists cause, err = "form cancelled or failed: " +:+ cause
  end.
Proof.
  unfold config.PromptForMissingConfig.
  destruct (config.formRun _ _) as [v | cause]; [| by exists cause].
  cbn [Author ModulePath ProjectName]. split; [| split].
  - destruct (String.eqb_spec (config.fvAuthor v) ""); [discriminate | done].
  - destruct (String.eqb_spec (config.fvModulePath v) ""); [done |].
    intros Hm. by destruct n.
  - intros Hname. by destruct (String.eqb_spec (ProjectName cfg) "").
Qed.

(** Whatever the mode, a configuration that runNew hands to the generator
    has a project name that passes ValidateProjectName, a module path and
    an author; without the interactive mode its name is the argument and
    its type is one of cli, library and service. *)
Theorem runNew_config_valid (flags : main.Flags) (args : list string)
    (cfg : ProjectConfig) :
  main.runNew_config flags args = Ok cfg ->
  generator.ValidateProjectName (ProjectName cfg) = None
  /\ ModulePath cfg <> ""
  /\ Author cfg <> ""
  /\ (main.interactive flags = false ->
      forall name rest, args = name :: rest ->
      ProjectName cfg = name
      /\ (Type_ cfg = TypeCLI \/ Type_ cfg = TypeLibrary \/ Type_ cfg = TypeService)).
Proof.
  intros Hcfg.
  assert (generator.ValidateProjectName (ProjectName cfg) = None
          /\ (ModulePath cfg = "" -> ProjectName cfg = "")
          /\ Author cfg <> ""
          /\ (main.interactive flags = false ->
              forall name rest, args = name :: rest ->
              ProjectName cfg = name
              /\ (Type_ cfg = TypeCLI \/ Type_ cfg = TypeLibrary
                  \/ Type_ cfg = TypeService))) as (Hname & Hmod & Hauth & Hni).
  { unfold main.runNew_config in Hcfg.
    assert (forall cfg0,
              match config.PromptForMissingConfig cfg0 with
              | (_, Some err) => Err err
              | (cfg1, None) =>
                  match generator.ValidateProjectName (ProjectName cfg1) with
                  | Some err => Err err
                  | None => Ok cfg1
                  end
              end = Ok cfg ->
              generator.ValidateProjectName (ProjectName cfg) = None
              /\ (ModulePath cfg = "" -> ProjectName cfg = "")
              /\ Author cfg <> "") as Hprompt.
    { intros cfg0 Hok. pose proof (PromptForMissingConfig_fills cfg0) as Hfill.
      destruct (config.PromptForMissingConfig cfg0) as [cfg1 [err |]]; [discriminate |].
      destruct (generator.ValidateProjectName (ProjectName cfg1)) eqn:Hv; [discriminate |].
      injection Hok as <-. destruct Hfill as (Ha & Hm & _). by repeat split. }
    destruct args as [| arg0 rest].
    - destruct (Hprompt _ Hcfg) as (? & ? & ?). repeat split; try done.
    - destruct (generator.ValidateProjectName arg0) eqn:Hv; [discriminate |].
      destruct (main.interactive flags) eqn:Hint.
      + destruct (Hprompt _ Hcfg) as (? & ? & ?). repeat split; try done.
      + cbn [ProjectName ModulePath Author License Type_] in Hcfg.
        destruct (negb (String.eqb (main.projectType flags) TypeCLI)
                  && negb (String.eqb (main.projectType flags) TypeLibrary)
                  && negb (String.eqb (main.projectType flags) TypeService)) eqn:Htype;
          [discriminate |].
        assert (main.projectType flags = TypeCLI \/ main.projectType flags = TypeLibrary
                \/ main.projectType flags = TypeService) as Hvalid.
        { destruct (String.eqb_spec (main.projectType flags) TypeCLI); [by left |].
          destruct (String.eqb_spec (main.projectType flags) TypeLibrary);
            [by right; left |].
          destruct (String.eqb_spec (main.projectType flags) TypeService);
            [by right; right | discriminate]. }
        destruct (String.eqb_spec (main.modulePath flags) "") as [Hm | Hm];
          cbn [ProjectName ModulePath Author License Type_] in Hcfg;
          destruct (String.eqb_spec (main.author flags) "") as [Ha | Ha];
          injection Hcfg as <-; cbn [ProjectName ModulePath Author License Type_];
          (split; [exact Hv |]); (split; [done |]); (split; [done |]);
          intros _ name rest' Heq; injection Heq as <- _; by split. }
  split; [exact Hname | split; [| split; [exact Hauth | exact Hni]]].
  intros Hm. specialize (Hmod Hm). rewrite Hmod in Hname. discriminate.
Qed.

End Prompting.

Section Command.
Import templates.
Context `{OS} `{TemplateSource} `{GoRuntime} `{config.Terminal}.

(** A project name that does not pass ValidateProjectName stops runNew at
    once, in either mode: the error of the validator is returned, the form
    is not shown and nothing is touched or printed. *)
Theorem runNew_rejects_invalid_name (flags : main.Flags) (name : string)
    (rest : list string) (err : error) (fs : FS) :
  generator.ValidateProjectName name = Some err ->
  main.runNew flags (name :: rest) fs
  = {| value := Some err; final := fs; events := [] |}.
Proof.
  intros Hv. unfold main.runNew, main.runNew_config. by rewrite Hv.
Qed.

(** Without the interactive mode, a project type that is none of cli,
    library and service stops runNew before anything is touched or
    printed. *)
Theorem runNew_rejects_invalid_type (flags : main.Flags) (name : string)
    (rest : list string) (fs : FS) :
  main.interactive flags = false ->
  generator.ValidateProjectName name = None ->
  main.projectType flags <> TypeCLI ->
  main.projectType flags <> TypeLibrary ->
  main.projectType flags <> TypeService ->
  main.runNew flags (name :: rest) fs
  = {| value := Some ("invalid project type: " +:+ main.projectType flags
                      +:+ " (must be cli, library, or service)");
       final := fs; events := [] |}.
Proof.
  intros Hint Hv Hcli Hlib Hsvc. unfold main.runNew, main.runNew_config.
  rewrite Hv, Hint.
  destruct (String.eqb_spec (main.projectType flags) TypeCLI); [done |].
  destruct (String.eqb_spec (main.projectType flags) TypeLibrary); [done |].
  destruct (String.eqb_spec (main.projectType flags) TypeService); [done |].
  reflexivity.
Qed.

(** Once the configuration is settled and the working directory known,
    runNew returns what Generate returns for that configuration under the
    working directory, and adds to its events the five lines of next steps
    exactly when the run is no dry run and Generate returned nil. The cd
    line names the argument of the command. *)
Theorem runNew_next_steps (flags : main.Flags) (args : list string)
    (cfg : ProjectConfig) (cwd : string) (fs : FS) :
  main.runNew_config flags args = Ok cfg ->
  Getwd fs = Ok cwd ->
  let run := generator.Generate (generator.New cfg cwd (main.dryRun flags)) fs in
  value (main.runNew flags args fs) = value run
  /\ final (main.runNew flags args fs) = final run
  /\ events (main.runNew flags args fs)
     = events run
       ++ match value run with
          | Some _ => []
          | None =>
              if main.dryRun flags then []
              else map EvPrint
                     [ nl +:+ "Next steps:" +:+ nl;
                       "  cd " +:+ hd "" args +:+ nl;
                       "  make deps" +:+ nl;
                       "  make build" +:+ nl;
                       "  make run" +:+ nl ]
          end.
Proof.
  intros Hcfg Hwd run. unfold main.runNew. rewrite Hcfg, Hwd. fold run.
  destruct (value run) as [err |] eqn:Hv.
  - rewrite (ifErr_err _ _ _ _ _ Hv). cbn [value final events].
    split; [reflexivity | split; reflexivity].
  - rewrite (ifErr_ok _ _ _ _ Hv). cbn [value final events].
    destruct (main.dryRun flags) eqn:Hdry; cbn [negb].
    + split; [reflexivity | split; reflexivity].
    + split; [reflexivity | split; reflexivity].
Qed.

(** When the command is given no argument, the name comes from the form,
    and after a successful real generation the cd line of the next steps
    names no directory, although the project has a name. *)
Theorem runNew_no_argument_cd (flags : main.Flags) (fs : FS) :
  main.dryRun flags = false ->
  value (main.runNew flags [] fs) = None ->
  exists cfg,
    main.runNew_config flags [] = Ok cfg
    /\ ProjectName cfg <> ""
    /\ In (EvPrint ("  cd " +:+ nl)) (events (main.runNew flags [] fs)).
Proof.
  intros Hreal Hv.
  destruct (main.runNew_config flags []) as [cfg | err] eqn:Hcfg.
  2:{ unfold main.runNew in Hv. rewrite Hcfg in Hv. discriminate. }
  destruct (Getwd fs) as [cwd | err] eqn:Hwd.
  2:{ unfold main.runNew in Hv. rewrite Hcfg, Hwd in Hv. discriminate. }
  exists cfg. split; [reflexivity |]. split.
  - destruct (runNew_config_valid _ _ _ Hcfg) as (Hname & _).
    intros Hempty. rewrite Hempty in Hname. discriminate.
  - destruct (runNew_next_steps flags [] cfg cwd fs Hcfg Hwd) as (Hval & _ & Hev).
    rewrite Hv in Hval. rewrite Hev, <- Hval, Hreal.
    apply in_or_app. right. right. by left.
Qed.

End Command.

(* ===================================================================== *)
(** ** What the preview reports, the tables of the policy, and names *)
(* ===================================================================== *)

Lemma string_app_assoc (a b c : string) : (a +:+ b) +:+ c = a +:+ (b +:+ c).
Proof.
  induction a as [| x a IH]; [reflexivity |].
  change (String x ((a +:+ b) +:+ c) = String x (a +:+ (b +:+ c))).
  by rewrite IH.
Qed.

Lemma dropLast_snoc (a : string) (c : ascii) :
  dropLast (a +:+ String c EmptyString) = a.
Proof.
  induction a as [| x a IH]; [reflexivity |].
  change (dropLast (String x (a +:+ String c EmptyString)) = String x a).
  destruct a as [| y a]; [reflexivity |].
  change (String x (dropLast (String y a +:+ String c EmptyString)) = String x (String y a)).
  by rewrite IH.
Qed.

Lemma reported_app (out1 out2 : list string) :
  reported (out1 ++ out2) = reported out1 ++ reported out2.
Proof. apply flat_map_app. Qed.

Lemma reported_entries {A} (entry : A -> string) (l : list A) :
  reported (map (fun x => "  " +:+ entry x +:+ nl) l) = map entry l.
Proof.
  induction l as [| x l IH]; [reflexivity |].
  change (dropLast (entry x +:+ nl)
          :: reported (map (fun x => "  " +:+ entry x +:+ nl) l)
          = entry x :: map entry l).
  unfold nl at 1. by rewrite dropLast_snoc, IH.
Qed.

Lemma stdout_prints (lines : list string) : stdout (map EvPrint lines) = lines.
Proof.
  induction lines as [| s lines IH]; [reflexivity |].
  change (s :: stdout (map EvPrint lines) = s :: lines). by rewrite IH.
Qed.

Section Preview.
Import templates generator.
Context `{OS}.

(** A loop that only prints returns nil, leaves the file system alone and
    performs one print event for each element. *)
Lemma forRange_print {A} (l : list A) (line : A -> string) (fs : FS) :
  forRange l (fun x => print (line x) ;; ret None) fs
  = {| value := None; final := fs; events := map (fun x => EvPrint (line x)) l |}.
Proof.
  induction l as [| x l IH]; [reflexivity |].
  cbn [forRange]. rewrite ifErr_ok by reflexivity.
  change (final ((print (line x) ;; ret None) fs)) with fs.
  rewrite IH. reflexivity.
Qed.

Lemma stdout_bind {A B} (m : M A) (k : A -> M B) (l1 l2 : list string) :
  (forall fs, stdout (events (m fs)) = l1) ->
  (forall a fs, stdout (events (k a fs)) = l2) ->
  forall fs, stdout (events (bind m k fs)) = l1 ++ l2.
Proof. intros Hm Hk fs. by rewrite bind_events, stdout_app, Hm, Hk. Qed.

Lemma stdout_forRange_print {A} (l : list A) (line : A -> string) (fs : FS) :
  stdout (events (forRange l (fun x => print (line x) ;; ret None) fs)) = map line l.
Proof.
  rewrite forRange_print. cbn [events].
  by rewrite <- (map_map line EvPrint), stdout_prints.
Qed.

(** The output of the preview, for every configuration. *)
Lemma preview_output (g : Generator) (fs : FS) :
  stdout (events (preview g fs))
  = [ nl +:+ "Project: " +:+ ProjectName (config g) +:+ nl;
      "Location: " +:+ filepath.Join [baseDir g; ProjectName (config g)] +:+ nl;
      "Module Path: " +:+ ModulePath (config g) +:+ nl;
      "Type: " +:+ Type_ (config g) +:+ nl +:+ nl;
      "Directories to be created:" +:+ nl ]
    ++ map (fun dir => "  " +:+ dir +:+ "/" +:+ nl)
           (DirectoryStructure (Type_ (config g)))
    ++ [ "  cmd/" +:+ ProjectName (config g) +:+ "/" +:+ nl;
         nl +:+ "Files to be created:" +:+ nl ]
    ++ map (fun file => "  " +:+ file +:+ nl)
           ([ "README.md"; "Makefile"; ".gitignore"; "go.mod";
              "cmd/" +:+ ProjectName (config g) +:+ "/main.go" ]
            ++ if String.eqb (Type_ (config g)) TypeService
               then ["Dockerfile"] else []).
Proof.
  unfold preview. etrans.
  { revert fs.
    repeat first
      [ progress cbv beta zeta
      | apply stdout_bind; [| intros _]
      | intros fs; apply stdout_forRange_print
      | intros fs; exact (eq_refl : stdout (events (print _ fs)) = [_])
      | intros fs; exact (eq_refl : stdout (events (ret None fs)) = []) ]. }
  cbn [app]. rewrite app_nil_r. do 6 f_equal.
  by destruct (String.eqb (Type_ (config g)) TypeService).
Qed.

(** The entries of the plan the preview prints, read back from its output:
    every policy directory with a slash, cmd/<project name>/, the four core
    files, the entry point and, for the service type only, the Dockerfile.
    The name of every core file that generateFiles is to write is among
    them. *)
Theorem preview_reports (g : Generator) (fs : FS) :
  reported (stdout (events (preview g fs)))
  = map (fun dir => dir +:+ "/") (DirectoryStructure (Type_ (config g)))
    ++ [ "cmd/" +:+ ProjectName (config g) +:+ "/" ]
    ++ [ "README.md"; "Makefile"; ".gitignore"; "go.mod";
         "cmd/" +:+ ProjectName (config g) +:+ "/main.go" ]
    ++ (if String.eqb (Type_ (config g)) TypeService then ["Dockerfile"] else [])
  /\ forall fileName : string,
       is_Some (files g !! fileName) ->
       In fileName (reported (stdout (events (preview g fs)))).
Proof.
  assert (reported (stdout (events (preview g fs)))
          = map (fun dir => dir +:+ "/") (DirectoryStructure (Type_ (config g)))
            ++ [ "cmd/" +:+ ProjectName (config g) +:+ "/" ]
            ++ [ "README.md"; "Makefile"; ".gitignore"; "go.mod";
                 "cmd/" +:+ ProjectName (config g) +:+ "/main.go" ]
            ++ (if String.eqb (Type_ (config g)) TypeService
                then ["Dockerfile"] else [])) as Hrep.
  { rewrite preview_output.
    rewrite (map_ext (fun dir => "  " +:+ dir +:+ "/" +:+ nl)
                     (fun dir => "  " +:+ (dir +:+ "/") +:+ nl))
      by (intros dir; cbv beta; by rewrite (string_app_assoc dir)).
    rewrite !reported_app, !reported_entries.
    change (reported [ nl +:+ "Project: " +:+ ProjectName (config g) +:+ nl;
                       "Location: " +:+ filepath.Join [baseDir g; ProjectName (config g)]
                       +:+ nl;
                       "Module Path: " +:+ ModulePath (config g) +:+ nl;
                       "Type: " +:+ Type_ (config g) +:+ nl +:+ nl;
                       "Directories to be created:" +:+ nl ]) with (@nil string).
    cbn [app]. f_equal.
    change (reported [ "  cmd/" +:+ ProjectName (config g) +:+ "/" +:+ nl;
                       nl +:+ "Files to be created:" +:+ nl ])
      with ([dropLast ("cmd/" +:+ ProjectName (config g) +:+ "/" +:+ nl)] ++ []).
    rewrite <- (string_app_assoc (ProjectName (config g))).
    rewrite <- (string_app_assoc "cmd/").
    unfold nl at 1. rewrite dropLast_snoc, map_id. reflexivity. }
  split; [exact Hrep |].
  intros fileName [templateName Hlook]. rewrite Hrep.
  apply in_or_app. right. apply in_or_app. right.
  unfold files in Hlook.
  destruct (String.eqb (Type_ (config g)) TypeService).
  - apply lookup_insert_Some in Hlook as [[<- _] | [_ Hlook]]; [cbn; tauto |].
    apply lookup_insert_Some in Hlook as [[<- _] | [_ Hlook]]; [cbn; tauto |].
    apply lookup_insert_Some in Hlook as [[<- _] | [_ Hlook]]; [cbn; tauto |].
    apply lookup_insert_Some in Hlook as [[<- _] | [_ Hlook]]; [cbn; tauto |].
    apply lookup_singleton_Some in Hlook as [<- _]. cbn; tauto.
  - apply lookup_insert_Some in Hlook as [[<- _] | [_ Hlook]]; [cbn; tauto |].
    apply lookup_insert_Some in Hlook as [[<- _] | [_ Hlook]]; [cbn; tauto |].
    apply lookup_insert_Some in Hlook as [[<- _] | [_ Hlook]]; [cbn; tauto |].
    apply lookup_singleton_Some in Hlook as [<- _]. cbn; tauto.
Qed.

End Preview.

Section Tables.
Import templates generator.

(** Whatever the project type, the policy directories include those of a
    library (internal, pkg, cmd, scripts, test, docs, examples) and are
    among those of a service. *)
Theorem DirectoryStructure_between (t : ProjectType) :
  DirectoryStructure TypeLibrary ⊆ DirectoryStructure t
  /\ DirectoryStructure t ⊆ DirectoryStructure TypeService.
Proof.
  destruct (DirectoryStructure_cases t) as [-> | [-> | ->]];
    split; apply (bool_decide_unpack _); vm_compute; reflexivity.
Qed.

Lemma ContainsAny_app (a b chars : string) :
  strings.ContainsAny (a +:+ b) chars
  = strings.ContainsAny a chars || strings.ContainsAny b chars.
Proof.
  induction a as [| c a IH]; [reflexivity |].
  change (strings.byteIn c chars || strings.ContainsAny (a +:+ b) chars
          = strings.byteIn c chars || strings.ContainsAny a chars
            || strings.ContainsAny b chars).
  by rewrite IH, orb_assoc.
Qed.

Lemma append_empty (a b : string) : a +:+ b = "" -> a = "" /\ b = "".
Proof.
  destruct a as [| c a]; [| discriminate].
  change ("" +:+ b) with b. by intros ->.
Qed.

(** A name put together from two non-empty parts passes ValidateProjectName
    exactly when both parts do. *)
Theorem ValidateProjectName_append (a b : string) :
  a <> "" -> b <> "" ->
  ValidateProjectName (a +:+ b) = None
  <-> ValidateProjectName a = None /\ ValidateProjectName b = None.
Proof.
  intros Ha Hb. unfold ValidateProjectName.
  destruct (String.eqb_spec (a +:+ b) "") as [Hab | _];
    [apply append_empty in Hab as [? _]; done |].
  destruct (String.eqb_spec a ""); [done |].
  destruct (String.eqb_spec b ""); [done |].
  rewrite ContainsAny_app.
  destruct (strings.ContainsAny a _), (strings.ContainsAny b _); cbn; intuition discriminate.
Qed.

End Tables.

(* ===================================================================== *)
(** ** Real generation and the template source *)
(* ===================================================================== *)

Section Templates.
Import templates generator.
Context `{OS} `{TemplateSource} `{GoRuntime}.

Lemma rangeOrder_files_cons (g : Generator) :
  exists fileName templateName rest,
    rangeOrder (files g) = (fileName, templateName) :: rest.
Proof.
  pose proof (files_entries g) as Hperm.
  destruct (rangeOrder (files g)) as [| [fileName templateName] rest].
  - apply Permutation_nil in Hperm. discriminate.
  - by exists fileName, templateName, rest.
Qed.

Lemma no_templates_rendered (g : Generator) (templateName : string) :
  (forall name, exists err, ReadFile name = Err err) ->
  exists err, rendered g templateName = Err err.
Proof.
  intros Hnone. unfold rendered, GetTemplate.
  destruct (Hnone ("files/" +:+ templateName)) as [err ->]. by exists err.
Qed.

Lemma generateFiles_no_templates (g : Generator) (projectPath : string) (fs : FS) :
  (forall name, exists err, ReadFile name = Err err) ->
  value (generateFiles g projectPath fs) <> None
  /\ events (generateFiles g projectPath fs) = [].
Proof.
  intros Hnone. unfold generateFiles.
  destruct (rangeOrder_files_cons g) as (fileName & templateName & rest & ->).
  cbn [forRange].
  pose proof (generateFile_outcomes g projectPath fileName templateName fs) as Hout.
  cbv zeta in Hout.
  destruct (no_templates_rendered g templateName Hnone) as [err Herr].
  rewrite Herr in Hout. destruct Hout as (Hv & _ & Hev).
  destruct (value (generateFile g projectPath fileName templateName fs))
    as [e |] eqn:Hval; [| done].
  assert (value (ifErr (generateFile g projectPath fileName templateName)
                   id (forRange rest (fun '(fileName, templateName) =>
                         generateFile g projectPath fileName templateName)) fs)
          = Some (id e)) as Hloop
    by (by rewrite (ifErr_err _ _ _ _ _ Hval)).
  rewrite (ifErr_err _ _ _ _ _ Hloop). cbn [value events].
  rewrite (ifErr_err _ _ _ _ _ Hval). cbn [events]. rewrite Hev. by split.
Qed.

(** With a template source that has no file at all, a real-mode Generate
    always returns an error and never gets to write a file. *)
Theorem Generate_without_templates (g : Generator) (fs : FS) :
  (forall name, exists err, ReadFile name = Err err) ->
  dryRun g = false ->
  value (Generate g fs) <> None
  /\ writeAttempts (events (Generate g fs)) = [].
Proof.
  intros Hnone Hreal.
  destruct (Generate_real_shape g fs Hreal)
    as (mk & wr & Hev & Hmk & _ & _ & Hwr & Hsucc).
  assert (wr = []) as ->.
  { destruct Hwr as [-> | ->]; [done |]. by apply generateFiles_no_templates. }
  split.
  - intros Hv. destruct (Hsucc Hv) as (_ & _ & _ & Hgf).
    by apply (generateFiles_no_templates g _ _ Hnone) in Hgf.
  - rewrite Hev, !writeAttempts_app, (proj1 (mkdirs_only _ Hmk)).
    by destruct (value (Generate g fs)).
Qed.




End Templates.

(* ===================================================================== *)
(** ** Where the project goes: the project path of a validated name *)
(* ===================================================================== *)

Section ProjectPath.
Import generator.

Lemma elements_sep (a n cur : string) :
  filepath.elements (a +:+ "/" +:+ n) cur
  = filepath.elements a cur ++ filepath.elements n "".
Proof.
  revert cur. induction a as [| c a IH]; intros cur; [reflexivity |].
  change (filepath.elements (String c (a +:+ "/" +:+ n)) cur
          = filepath.elements (String c a) cur ++ filepath.elements n "").
  cbn [filepath.elements]. destruct (filepath.isSep c); by rewrite IH.
Qed.

Lemma elements_no_sep (n cur : string) :
  strings.ContainsAny n "/" = false ->
  filepath.elements n cur = [cur +:+ n].
Proof.
  revert cur. induction n as [| c n IH]; intros cur Hn.
  - cbn [filepath.elements]. f_equal.
    induction cur as [| x cur IHc]; [reflexivity |].
    change (String x cur = String x (cur +:+ "")). by rewrite <- IHc.
  - cbn [strings.ContainsAny strings.byteIn] in Hn.
    apply orb_false_iff in Hn as [Hc Hn]. rewrite orb_false_r in Hc.
    cbn [filepath.elements]. unfold filepath.isSep. rewrite Hc, (IH _ Hn).
    by rewrite string_app_assoc.
Qed.

Lemma Join_snoc (l : list string) (n sep : string) :
  l <> [] -> strings.Join (l ++ [n]) sep = strings.Join l sep +:+ sep +:+ n.
Proof.
  induction l as [| e l IH]; [done |]. intros _.
  destruct l as [| e' l]; [reflexivity |].
  change (e +:+ sep +:+ strings.Join ((e' :: l) ++ [n]) sep
          = (e +:+ sep +:+ strings.Join (e' :: l) sep) +:+ sep +:+ n).
  rewrite IH by done. by rewrite !string_app_assoc.
Qed.

Lemma append_not_empty (a n : string) : n <> "" -> String.eqb (a +:+ n) "" = false.
Proof.
  intros Hn. destruct (String.eqb_spec (a +:+ n) "") as [Heq |]; [| done].
  apply append_empty in Heq as [_ ?]. done.
Qed.

Lemma ValidateProjectName_no_sep (name : string) :
  ValidateProjectName name = None ->
  name <> "" /\ strings.ContainsAny name "/" = false.
Proof.
  intros Hv. apply ValidateProjectName_rejects_exactly in Hv as [Hne Hall].
  split; [exact Hne |].
  destruct (strings.ContainsAny name "/") eqn:Hany; [| done].
  apply ContainsAny_In in Hany as (c & Hc & [<- | []]).
  destruct (Hall _ Hc). cbn. tauto.
Qed.

(** Below a base directory, a project name that passed ValidateProjectName
    and is neither . nor .. gives a project path whose last element is the
    name itself: the path is the name, or ends in a slash followed by the
    name. The name . passes the validator too, and its project path is the
    base directory itself. *)
Theorem project_path_of_valid_name (base name : string) :
  base <> "" ->
  ValidateProjectName name = None ->
  (name = "." -> filepath.Join [base; name] = filepath.Clean base)
  /\ (name <> "." -> name <> ".." ->
      exists dir,
        filepath.Join [base; name] = dir +:+ name
        /\ (dir = "" \/ exists d, dir = d +:+ "/")).
Proof.
  intros Hbase Hv. apply ValidateProjectName_no_sep in Hv as [Hne Hsep].
  destruct base as [| c base]; [done |].
  assert (filepath.Join [String c base; name]
          = let rooted := filepath.isSep c in
            let out := filepath.cleanStep rooted
                         (fold_left (filepath.cleanStep rooted)
                            (filepath.elements (String c base) "") []) name in
            let body := strings.Join (rev out) "/" in
            if rooted then "/" +:+ body
            else if String.eqb body "" then "." else body) as Hjoin.
  { change (filepath.Join [String c base; name])
      with (filepath.Clean (String c base +:+ "/" +:+ name)).
    change (String c base +:+ "/" +:+ name) with (String c (base +:+ "/" +:+ name)).
    cbn [filepath.Clean].
    change (String c (base +:+ "/" +:+ name)) with (String c base +:+ "/" +:+ name).
    by rewrite elements_sep, (elements_no_sep _ _ Hsep), fold_left_app. }
  rewrite Hjoin. cbv zeta.
  set (rooted := filepath.isSep c).
  set (out := fold_left (filepath.cleanStep rooted)
                (filepath.elements (String c base) "") []).
  split.
  - intros ->. reflexivity.
  - intros Hdot Hdotdot.
    assert (filepath.cleanStep rooted out name = name :: out) as ->.
    { unfold filepath.cleanStep.
      destruct (String.eqb_spec name ""); [done |].
      destruct (String.eqb_spec name "."); [done |].
      destruct (String.eqb_spec name ".."); done. }
    cbn [rev].
    destruct (rev out) as [| e l] eqn:Hrev.
    + change (strings.Join ([] ++ [name]) "/") with name.
      destruct rooted.
      * exists "/". split; [reflexivity |]. right. by exists "".
      * destruct (String.eqb_spec name ""); [done |].
        exists "". split; [reflexivity | by left].
    + rewrite Join_snoc by done.
      destruct rooted.
      * exists ("/" +:+ strings.Join (e :: l) "/" +:+ "/").
        split; [by rewrite !string_app_assoc |].
        right. exists ("/" +:+ strings.Join (e :: l) "/"). by rewrite !string_app_assoc.
      * rewrite <- string_app_assoc, (append_not_empty _ name Hne).
        exists (strings.Join (e :: l) "/" +:+ "/"). split; [reflexivity |].
        right. by exists (strings.Join (e :: l) "/").
Qed.

End ProjectPath.

(* ===================================================================== *)
(** ** These theorems at work on the explicit inputs *)
(* ===================================================================== *)

Section MoreInstances.
Import templates generator.

(** The directories of the demo CLI project under an empty /work. *)
Lemma createDirectories_asks_for_witness :
  mkdirAttempts (events (@createDirectories memfs.os (fixture.gen TypeCLI false)
                           "/work/demo" fixture.work))
  = map (fun dir => filepath.Join ["/work/demo"; dir]) (DirectoryStructure TypeCLI)
    ++ [ filepath.Join ["/work/demo"; "cmd"; "demo"];
         filepath.Join ["/work/demo"; ".github"; "workflows"] ].
Proof.
  apply (@createDirectories_asks_for memfs.os (fixture.gen TypeCLI false)
           "/work/demo" fixture.work).
  vm_compute. reflexivity.
Defined.

(** The templates of the demo service. *)
Lemma generateFiles_needs_every_template_witness :
  exists data,
    @rendered fixture.ts (fixture.gen TypeService false) "main.go.tmpl" = Ok data.
Proof.
  apply (@generateFiles_needs_every_template memfs.os fixture.ts keyOrder
           (fixture.gen TypeService false) "/work/demo" (fixture.ready TypeService)).
  vm_compute. reflexivity.
Defined.

(** The real generation of the demo CLI project. *)
Lemma Generate_real_directories_before_files_witness :
  exists mk wr : list Event,
    events (fixture.generate fixture.ts TypeCLI false fixture.work)
    = mk ++ wr
      ++ match value (fixture.generate fixture.ts TypeCLI false fixture.work) with
         | None =>
             [EvPrint ("✓ Project " +:+ "demo" +:+ " created successfully at "
                       +:+ filepath.Join ["/work"; "demo"] +:+ nl)]
         | Some _ => []
         end
    /\ Forall isMkdir mk
    /\ Forall isWrite wr
    /\ (~ Forall okEvent mk -> wr = []).
Proof.
  apply (@Generate_real_directories_before_files memfs.os fixture.ts keyOrder
           (fixture.gen TypeCLI false) fixture.work).
  reflexivity.
Defined.

Lemma Generate_real_output_witness :
  stdout (events (fixture.generate fixture.ts TypeCLI false fixture.work))
  = match value (fixture.generate fixture.ts TypeCLI false fixture.work) with
    | None =>
        ["✓ Project " +:+ "demo" +:+ " created successfully at "
         +:+ filepath.Join ["/work"; "demo"] +:+ nl]
    | Some _ => []
    end.
Proof.
  apply (@Generate_real_output memfs.os fixture.ts keyOrder
           (fixture.gen TypeCLI false) fixture.work).
  reflexivity.
Defined.

Lemma Generate_real_directories_witness :
  mkdirAttempts (events (fixture.generate fixture.ts TypeCLI false fixture.work))
  = filepath.Join ["/work"; "demo"]
    :: map (fun dir => filepath.Join [filepath.Join ["/work"; "demo"]; dir])
           (DirectoryStructure TypeCLI)
    ++ [ filepath.Join [filepath.Join ["/work"; "demo"]; "cmd"; "demo"];
         filepath.Join [filepath.Join ["/work"; "demo"]; ".github"; "workflows"] ].
Proof.
  apply (@Generate_real_directories memfs.os fixture.ts keyOrder
           (fixture.gen TypeCLI false) fixture.work).
  - reflexivity.
  - vm_compute. reflexivity.
Defined.

(** The demo service generated under the two orders of ranging. *)
Lemma Generate_writes_up_to_range_order_witness :
  writeAttempts (events (@Generate memfs.os fixture.ts keyOrder
                           (fixture.gen TypeService false) fixture.work))
  ≡ₚ writeAttempts (events (@Generate memfs.os fixture.ts reverseKeyOrder
                              (fixture.gen TypeService false) fixture.work)).
Proof.
  apply (@Generate_writes_up_to_range_order memfs.os fixture.ts keyOrder reverseKeyOrder
           (fixture.gen TypeService false) fixture.work fixture.work).
  - reflexivity.
  - vm_compute. reflexivity.
  - vm_compute. reflexivity.
Defined.

(** The form submitted as it stands for the demo configuration. *)
Lemma PromptForMissingConfig_fills_witness :
  @config.PromptForMissingConfig submitAsIs fixture.demo = (fixture.demo, None)
  /\ Author fixture.demo <> "".
Proof.
  split; [reflexivity |].
  pose proof (@PromptForMissingConfig_fills submitAsIs fixture.demo) as Hfill.
  exact (proj1 Hfill).
Defined.

(** The demo scenario of the command line. *)
Lemma runNew_config_valid_witness :
  ValidateProjectName "demo" = None
  /\ "demo" <> ""
  /\ "Your Name" <> "".
Proof.
  destruct (@runNew_config_valid submitAsIs fixture.demoFlags ["demo"]
              {| ProjectName := "demo"; ModulePath := "demo"; Author := "Your Name";
                 License := "MIT"; Type_ := TypeCLI |})
    as (Hname & Hmod & Hauth & _).
  - reflexivity.
  - split; [exact Hname | split; [exact Hmod | exact Hauth]].
Defined.

(** A project name with a slash in it. *)
Lemma runNew_rejects_invalid_name_witness :
  @main.runNew memfs.os fixture.ts keyOrder submitAsIs fixture.demoFlags ["a/b"]
    fixture.work
  = @Build_Run memfs.os _ (Some "project name contains invalid characters")
      fixture.work [].
Proof.
  apply (@runNew_rejects_invalid_name memfs.os fixture.ts keyOrder submitAsIs
           fixture.demoFlags "a/b" [] "project name contains invalid characters"
           fixture.work).
  reflexivity.
Defined.

(** A project type the program does not know, on the command line. *)
Lemma runNew_rejects_invalid_type_witness :
  value (@main.runNew memfs.os fixture.ts keyOrder submitAsIs
           {| main.modulePath := ""; main.author := ""; main.license := "MIT";
              main.projectType := "plugin"; main.dryRun := false;
              main.interactive := false |}
           ["demo"] fixture.work)
  = Some "invalid project type: plugin (must be cli, library, or service)".
Proof.
  rewrite (@runNew_rejects_invalid_type memfs.os fixture.ts keyOrder submitAsIs
             {| main.modulePath := ""; main.author := ""; main.license := "MIT";
                main.projectType := "plugin"; main.dryRun := false;
                main.interactive := false |}
             "demo" [] fixture.work);
    [reflexivity | reflexivity | reflexivity | discriminate | discriminate | discriminate].
Defined.

(** The demo scenario run to its end under /work. *)
Lemma runNew_next_steps_witness :
  value (@main.runNew memfs.os fixture.ts keyOrder submitAsIs fixture.demoFlags ["demo"]
           fixture.work)
  = value (fixture.generate fixture.ts TypeCLI false fixture.work).
Proof.
  apply (@runNew_next_steps memfs.os fixture.ts keyOrder submitAsIs fixture.demoFlags
           ["demo"] fixture.demo "/work" fixture.work).
  - reflexivity.
  - reflexivity.
Defined.

(** The command without an argument, the user typing the name demo. *)
Lemma runNew_no_argument_cd_witness :
  exists cfg,
    @main.runNew_config entersDemo fixture.demoFlags [] = Ok cfg
    /\ ProjectName cfg <> ""
    /\ In (EvPrint ("  cd " +:+ nl))
          (events (@main.runNew memfs.os fixture.ts keyOrder entersDemo
                     fixture.demoFlags [] fixture.work)).
Proof.
  apply (@runNew_no_argument_cd memfs.os fixture.ts keyOrder entersDemo
           fixture.demoFlags fixture.work).
  - reflexivity.
  - vm_compute. reflexivity.
Defined.

(** The preview of the demo service reports its Dockerfile. *)
Lemma preview_reports_witness :
  In "Dockerfile"
     (reported (stdout (events (@preview memfs.os (fixture.gen TypeService true)
                                  fixture.work)))).
Proof.
  apply (@preview_reports memfs.os (fixture.gen TypeService true) fixture.work).
  exists "Dockerfile-service.tmpl". vm_compute. reflexivity.
Defined.

(** A name made of two valid parts. *)
Lemma ValidateProjectName_append_witness :
  ValidateProjectName ("my" +:+ "app") = None.
Proof.
  apply (ValidateProjectName_append "my" "app"); [discriminate | discriminate |].
  split; reflexivity.
Defined.

(** Real generation of the demo project without any template. *)
Lemma Generate_without_templates_witness :
  value (fixture.generate fixture.noTemplates TypeCLI false fixture.work) <> None
  /\ writeAttempts (events (fixture.generate fixture.noTemplates TypeCLI false
                              fixture.work)) = [].
Proof.
  apply (@Generate_without_templates memfs.os fixture.noTemplates keyOrder
           (fixture.gen TypeCLI false) fixture.work).
  - intros name. eexists. reflexivity.
  - reflexivity.
Defined.



(** The demo project below /work. *)
Lemma project_path_of_valid_name_witness :
  exists dir,
    filepath.Join ["/work"; "demo"] = dir +:+ "demo"
    /\ (dir = "" \/ exists d, dir = d +:+ "/").
Proof.
  destruct (project_path_of_valid_name "/work" "demo") as [_ Hchild];
    [discriminate | reflexivity |].
  apply Hchild; discriminate.
Defined.

(** Which template is reported missing depends on the order of the range:
    without any template, ranging in key order stops at go.mod.tmpl and
    ranging in the opposite order at README.md.tmpl. *)
Example missing_template_depends_on_range_order :
  value (@Generate memfs.os fixture.noTemplates keyOrder
           (fixture.gen TypeCLI false) fixture.work)
  = Some "failed to load template go.mod.tmpl: open files/go.mod.tmpl: file does not exist"
  /\ value (@Generate memfs.os fixture.noTemplates reverseKeyOrder
              (fixture.gen TypeCLI false) fixture.work)
     = Some ("failed to load template README.md.tmpl: "
             +:+ "open files/README.md.tmpl: file does not exist").
Proof. split; vm_compute; reflexivity. Qed.

End MoreInstances.
